(** * metaserver: EC2-style and NoCloud-style instance metadata

    A shallow embedding of the request handlers of [ec2server] and
    [noclserver] together with their routers, and the properties of
    the two wire surfaces that follow from the code.

    Go strings are byte sequences and are embedded as [string]; Go's
    [int] is embedded as [Z] (with the 64-bit range made explicit where
    the code depends on it, in [Atoi]); slices are lists; the header map
    of a response is a [gmap].  The two remote backends (VM registry and
    public key store) are the fields of the server record, as in the
    source; every call made to them is recorded in a trace so that "no
    call" and "no retry" can be stated.  Tracing spans and glog output
    have no effect on a response and are left out. *)

From Stdlib Require Import ZArith String Ascii List Decimal DecimalString.
From Stdlib Require DecimalPos.
From stdpp Require Import base option numbers list gmap strings.

Local Open Scope string_scope.
Local Open Scope Z_scope.

(** ** The parts of the Go standard library the handlers use *)

Module gostd.

(** A Go [error] value; only its presence matters to the handlers. *)
Inductive error := ErrSyntax | ErrRange | ErrBackend (msg : string)
                 | ErrEncode (msg : string).

(** The [(value, err)] pair a Go call returns. *)
Inductive result (A : Type) :=
| Ok (a : A)
| Err (e : error).
Global Arguments Ok {A} a.
Global Arguments Err {A} e.

Definition LF : string := String "010"%char EmptyString.
Definition DQUOTE : string := String "034"%char EmptyString.

(** [strings.Join]. *)
Definition Join (l : list string) (sep : string) : string :=
  String.concat sep l.

(** [strings.CutPrefix]: the text after a given prefix. *)
Fixpoint CutPrefix (p s : string) : option string :=
  match p with
  | EmptyString => Some s
  | String a p' =>
      match s with
      | EmptyString => None
      | String b s' => if Ascii.eqb a b then CutPrefix p' s' else None
      end
  end.

(** [strings.Cut]: the text before the first occurrence of [sep] and
    the text after it. *)
Fixpoint Cut (s sep : string) : option (string * string) :=
  match CutPrefix sep s with
  | Some after => Some (EmptyString, after)
  | None =>
      match s with
      | EmptyString => None
      | String c s' =>
          match Cut s' sep with
          | Some (before, after) => Some (String c before, after)
          | None => None
          end
      end
  end.

(** [strings.SplitN(s, sep, n)] for [n >= 0] and a non-empty [sep]
    (the only way the source calls it: [sep = ":"], [n = 2]). *)
Fixpoint SplitN (s sep : string) (n : nat) : list string :=
  match n with
  | O => []
  | S O => [s]
  | S n' =>
      match Cut s sep with
      | Some (before, after) => before :: SplitN after sep n'
      | None => [s]
      end
  end.

(** [strconv.Itoa] and the [%d] verb. *)
Definition Itoa (i : Z) : string := NilZero.string_of_int (Z.to_int i).

(** [strconv.Atoi]: an optional sign followed by one or more decimal
    digits; a value outside the range of [int] is a range error. *)
Definition intSize : Z := 64.
Definition maxInt : Z := 2 ^ (intSize - 1) - 1.
Definition minInt : Z := - 2 ^ (intSize - 1).

Definition digit (c : ascii) : option Z :=
  let d := Z.of_N (N_of_ascii c) - 48 in
  if (0 <=? d) && (d <=? 9) then Some d else None.

Fixpoint digits (s : string) (acc : Z) : option Z :=
  match s with
  | EmptyString => Some acc
  | String c s' =>
      match digit c with
      | Some d => digits s' (acc * 10 + d)
      | None => None
      end
  end.

Definition Atoi (s : string) : result Z :=
  match s with
  | EmptyString => Err ErrSyntax
  | String c rest =>
      let neg := Ascii.eqb c "-"%char in
      let body := if neg || Ascii.eqb c "+"%char then rest else s in
      match body with
      | EmptyString => Err ErrSyntax
      | _ =>
          match digits body 0 with
          | None => Err ErrSyntax
          | Some n =>
              let v := if neg then - n else n in
              if (minInt <=? v) && (v <=? maxInt) then Ok v
              else Err ErrRange
          end
      end
  end.

(** Indexing a slice, [l[i]]: out of range is a run-time panic. *)
Definition index {A} (l : list A) (i : Z) : option A :=
  if i <? 0 then None else l !! Z.to_nat i.

(** [len(l)] as an [int]. *)
Definition len {A} (l : list A) : Z := Z.of_nat (length l).

End gostd.

(** ** The two backends, as the generated clients present them *)

Module vmregistrypb.
(** [FindRequest_IP] is the only search criterion the handlers use. *)
Inductive FindRequest_FindByType := FindRequest_IP.
Record FindRequest := { FindBy : FindRequest_FindByType; Value : string }.
Record VM := { Name : string }.
End vmregistrypb.

Module pubkeystorepb.
Record GetKeysRequest := { VmName : string }.
Record Key := { Name : string; Algo : string; Pubkey : string;
                Comment : string }.
Record GetKeysReply := { Keys : list Key }.
End pubkeystorepb.

Module rpc.
Import gostd.

(** One remote call, as it appears in the trace of a request. *)
Inductive Call :=
| CallFind (rq : vmregistrypb.FindRequest)
| CallGetKeys (rq : pubkeystorepb.GetKeysRequest).

(** A client answers a request; the answer may depend on the calls
    already made while serving the current HTTP request, so that a
    backend whose state changes between calls is covered. *)
Record VMRegistryClient :=
  { Find : list Call -> vmregistrypb.FindRequest -> result vmregistrypb.VM }.
Record PubkeyStoreClient :=
  { GetKeys : list Call -> pubkeystorepb.GetKeysRequest ->
              result pubkeystorepb.GetKeysReply }.

(** The request [&vmregistrypb.FindRequest{FindBy: FindRequest_IP,
    Value: ip}] every handler sends to the registry. *)
Definition findByIP (ip : string) : vmregistrypb.FindRequest :=
  {| vmregistrypb.FindBy := vmregistrypb.FindRequest_IP;
     vmregistrypb.Value := ip |}.

(** The request [&pubkeystorepb.GetKeysRequest{VmName: vm.Name}]. *)
Definition keysOf (vm : vmregistrypb.VM) : pubkeystorepb.GetKeysRequest :=
  {| pubkeystorepb.VmName := vmregistrypb.Name vm |}.

End rpc.

(** ** net/http: response writer, requests, and the handler monad *)

Module nethttp.
Import gostd rpc.

Record Request := { Method : string; URL_Path : string; RemoteAddr : string }.

(** What the handler has sent so far.  [status = None] until the
    status line is written. *)
Record ResponseWriter :=
  { status : option Z; header : gmap string (list string); body : string }.

Definition newResponse : ResponseWriter :=
  {| status := None; header := ∅; body := EmptyString |}.

(** [w.WriteHeader(code)]: a second call has no effect. *)
Definition ResponseWriter_WriteHeader (code : Z) (w : ResponseWriter)
  : ResponseWriter :=
  match status w with
  | Some _ => w
  | None => {| status := Some code; header := header w; body := body w |}
  end.

(** [w.Write(data)]: writes the status line 200 first if none was
    written. *)
Definition ResponseWriter_Write (data : string) (w : ResponseWriter)
  : ResponseWriter :=
  let w' := ResponseWriter_WriteHeader 200 w in
  {| status := status w'; header := header w'; body := body w' +:+ data |}.

(** [w.Header().Set(k, v)]. *)
Definition Header_Set (k v : string) (w : ResponseWriter) : ResponseWriter :=
  {| status := status w; header := <[k := [v]]> (header w); body := body w |}.

(** The state a handler runs in: the response under construction and
    the remote calls made so far. *)
Record World := { writer : ResponseWriter; calls : list Call }.

Definition newWorld : World := {| writer := newResponse; calls := [] |}.

(** A handler either returns or panics (the server then drops the
    connection without a reply of the handler's). *)
Inductive Outcome (A : Type) :=
| Returned (a : A) (σ : World)
| Panicked (σ : World).
Global Arguments Returned {A} a σ.
Global Arguments Panicked {A} σ.

Definition Handler (A : Type) : Type := World -> Outcome A.

Global Instance Handler_ret : MRet Handler := λ A a σ, Returned a σ.
Global Instance Handler_bind : MBind Handler := λ A B f m σ,
  match m σ with
  | Returned a σ' => f a σ'
  | Panicked σ' => Panicked σ'
  end.

Definition final {A} (o : Outcome A) : World :=
  match o with Returned _ σ => σ | Panicked σ => σ end.

Definition panic {A} : Handler A := λ σ, Panicked σ.

Definition onWriter (f : ResponseWriter -> ResponseWriter) : Handler unit :=
  λ σ, Returned tt {| writer := f (writer σ); calls := calls σ |}.

Definition WriteHeader (code : Z) : Handler unit :=
  onWriter (ResponseWriter_WriteHeader code).
Definition Write (data : string) : Handler unit :=
  onWriter (ResponseWriter_Write data).

(** The two remote calls, appended to the trace. *)
Definition Find (c : VMRegistryClient) (rq : vmregistrypb.FindRequest)
  : Handler (result vmregistrypb.VM) :=
  λ σ, Returned (rpc.Find c (calls σ) rq)
         {| writer := writer σ; calls := calls σ ++ [CallFind rq] |}.
Definition GetKeys (c : PubkeyStoreClient) (rq : pubkeystorepb.GetKeysRequest)
  : Handler (result pubkeystorepb.GetKeysReply) :=
  λ σ, Returned (rpc.GetKeys c (calls σ) rq)
         {| writer := writer σ; calls := calls σ ++ [CallGetKeys rq] |}.

(** [http.Redirect(w, rq, url, 301)] for an absolute [url] without
    characters that need escaping: the [Location] header, the status
    line, and for GET (HEAD) requests a content type and (GET only) a
    short HTML note. *)
Definition Redirect (rq : Request) (url : string) (code : Z) : Handler unit :=
  λ σ,
  let hadCT := bool_decide (is_Some (header (writer σ) !! "Content-Type")) in
  let isGET := String.eqb (Method rq) "GET" in
  let isHEAD := String.eqb (Method rq) "HEAD" in
  (onWriter (Header_Set "Location" url) ;;
   (if negb hadCT && (isGET || isHEAD)
    then onWriter (Header_Set "Content-Type" "text/html; charset=utf-8")
    else mret tt) ;;
   WriteHeader code ;;
   (if negb hadCT && isGET
    then Write ("<a href=" +:+ DQUOTE +:+ url +:+ DQUOTE +:+
                ">Moved Permanently</a>." +:+ LF +:+ LF)
    else mret tt)) σ.

(** [http.NotFound]. *)
Definition NotFound : Handler unit :=
  onWriter (Header_Set "Content-Type" "text/plain; charset=utf-8") ;;
  onWriter (Header_Set "X-Content-Type-Options" "nosniff") ;;
  WriteHeader 404 ;;
  Write ("404 page not found" +:+ LF).

(** A Go template compiled at start-up, as the function its
    [Execute] computes: the text written to the buffer, and the error
    if execution stopped early. *)
Record TemplateData := { Hostname : string; PublicKeys : list string }.
Record Template := { Execute : TemplateData -> string * option error }.
End nethttp.

(** ** gorilla/mux: path templates and first-match routing *)

Module mux.
Import gostd nethttp.

Inductive part := Lit (s : string) | Var (name : string).

Definition flush (acc : string) : list part :=
  match acc with EmptyString => [] | _ => [Lit acc] end.

(** A path template such as [/a/{key}/b], split at its braces. *)
Fixpoint parseTemplate (s : string) (inVar : bool) (acc : string)
  : list part :=
  match s with
  | EmptyString => flush acc
  | String c s' =>
      if inVar
      then if Ascii.eqb c "}"%char
           then Var acc :: parseTemplate s' false EmptyString
           else parseTemplate s' true (acc +:+ String c EmptyString)
      else if Ascii.eqb c "{"%char
           then flush acc ++ parseTemplate s' true EmptyString
           else parseTemplate s' false (acc +:+ String c EmptyString)
  end.

(** The longest run of characters other than [/] at the start of a
    path, and the rest. *)
Fixpoint segment (s : string) : string * string :=
  match s with
  | EmptyString => (EmptyString, EmptyString)
  | String c s' =>
      if Ascii.eqb c "/"%char then (EmptyString, s)
      else let '(seg, rest) := segment s' in (String c seg, rest)
  end.

(** Matching a whole path against a template.  A variable stands for
    the pattern [[^/]+]; in every template of the source a variable is
    followed by [/], so it takes the whole segment. *)
Fixpoint matchParts (tpl : list part) (path : string)
  (vars : gmap string string) : option (gmap string string) :=
  match tpl with
  | [] => if String.eqb path EmptyString then Some vars else None
  | Lit s :: tpl' =>
      match CutPrefix s path with
      | Some rest => matchParts tpl' rest vars
      | None => None
      end
  | Var name :: tpl' =>
      let '(seg, rest) := segment path in
      match seg with
      | EmptyString => None
      | _ => matchParts tpl' rest (<[name := seg]> vars)
      end
  end.

Definition HandlerFunc : Type :=
  Request -> gmap string string -> Handler unit.

Record Route := { template : string; handlerFunc : HandlerFunc }.

(** A router: a path prefix shared by its routes, tried in the order
    they were registered. *)
Record Router := { pathPrefix : string; routes : list Route }.

Definition HandleFunc (tpl : string) (h : HandlerFunc) (r : Router) : Router :=
  {| pathPrefix := pathPrefix r;
     routes := routes r ++ [{| template := tpl; handlerFunc := h |}] |}.

Definition matchRoute (prefix path : string) (rt : Route)
  : option (gmap string string) :=
  matchParts (parseTemplate (prefix +:+ template rt) false EmptyString)
    path ∅.

Fixpoint firstMatch (prefix path : string) (rts : list Route)
  : option (Route * gmap string string) :=
  match rts with
  | [] => None
  | rt :: rts' =>
      match matchRoute prefix path rt with
      | Some vars => Some (rt, vars)
      | None => firstMatch prefix path rts'
      end
  end.

Definition ServeHTTP (r : Router) (rq : Request) : Handler unit :=
  match firstMatch (pathPrefix r) (URL_Path rq) (routes r) with
  | Some (rt, vars) => handlerFunc rt rq vars
  | None => NotFound
  end.

(** [mux.Vars(rq)[name]]: a missing key reads as the empty string. *)
Definition Vars (vars : gmap string string) (name : string) : string :=
  default EmptyString (vars !! name).
End mux.

(** ** Package ec2server *)

Module ec2server.
Import gostd rpc nethttp.

Record Server :=
  { vmregClient : VMRegistryClient;
    pubkeystoreClient : PubkeyStoreClient;
    userDataTemplate : Template }.

(** Modelled from the spec: [metadataKeys], the entries of the root
    listing, is declared in a file of the package that is not part of
    the sources at hand; the spec gives "the fixed set
    {hostname, instance-id, public-keys}". *)
Definition metadataKeys : list string :=
  ["hostname"; "instance-id"; "public-keys"].

(** Modelled from the spec: [renderList] is defined in the same absent
    file; "directory-listing responses always separate entries with a
    newline and have no trailing marker", sent as the body of a 200
    response. *)
Definition renderList (l : list string) : Handler unit :=
  Write (Join l LF).

(** Modelled from the spec: [renderString], from the same absent file,
    emits its argument as plain text. *)
Definition renderString (s : string) : Handler unit :=
  Write s.

(** [HandleMetadata] handles [/meta-data/]. *)
Definition HandleMetadata (s : Server) : Handler unit :=
  renderList metadataKeys.

(** [HandleHostname] handles [/meta-data/hostname]. *)
Definition HandleHostname (s : Server) (ip : string) : Handler unit :=
  r ← Find (vmregClient s) (findByIP ip);
  match r with
  | Err _ => WriteHeader 500
  | Ok vm => renderString (vmregistrypb.Name vm)
  end.

(** [HandleInstanceID] handles [/meta-data/instance-id]. *)
Definition HandleInstanceID (s : Server) (ip : string) : Handler unit :=
  r ← Find (vmregClient s) (findByIP ip);
  match r with
  | Err _ => WriteHeader 500
  | Ok vm =>
      let instanceID := "i-" +:+ vmregistrypb.Name vm in
      renderString instanceID
  end.

(** [HandlePublicKeys] handles [/meta-data/public-keys/]. *)
Definition HandlePublicKeys (s : Server) (ip : string) : Handler unit :=
  r ← Find (vmregClient s) (findByIP ip);
  match r with
  | Err _ => WriteHeader 500
  | Ok vm =>
      r' ← GetKeys (pubkeystoreClient s) (keysOf vm);
      match r' with
      | Err _ => WriteHeader 500
      | Ok pkeys =>
          let repl :=
            imap (λ i k, Itoa (Z.of_nat i) +:+ "=" +:+ pubkeystorepb.Name k)
              (pubkeystorepb.Keys pkeys) in
          renderList repl
      end
  end.

(** [HandlePublicKey] handles [/meta-data/public-keys/{key}/]. *)
Definition HandlePublicKey (s : Server) (ip : string) (keyIdx : Z)
  : Handler unit :=
  r ← Find (vmregClient s) (findByIP ip);
  match r with
  | Err _ => WriteHeader 500
  | Ok vm =>
      r' ← GetKeys (pubkeystoreClient s) (keysOf vm);
      match r' with
      | Err _ => WriteHeader 500
      | Ok pkeys =>
          if keyIdx >=? len (pubkeystorepb.Keys pkeys)
          then WriteHeader 500
          else renderString "openssh-key"
      end
  end.

(** [HandlePublicKeyData] handles
    [/meta-data/public-keys/{key}/openssh-key]. *)
Definition HandlePublicKeyData (s : Server) (ip : string) (keyIdx : Z)
  : Handler unit :=
  r ← Find (vmregClient s) (findByIP ip);
  match r with
  | Err _ => WriteHeader 500
  | Ok vm =>
      r' ← GetKeys (pubkeystoreClient s) (keysOf vm);
      match r' with
      | Err _ => WriteHeader 500
      | Ok pkeys =>
          if keyIdx >=? len (pubkeystorepb.Keys pkeys)
          then WriteHeader 500
          else
            match index (pubkeystorepb.Keys pkeys) keyIdx with
            | None => panic
            | Some key =>
                let keyString :=
                  pubkeystorepb.Algo key +:+ " " +:+
                  pubkeystorepb.Pubkey key +:+ " " +:+
                  pubkeystorepb.Comment key in
                renderString keyString
            end
      end
  end.

(** [strings.SplitN(rq.RemoteAddr, ":", 2)[0]]; the slice [SplitN]
    returns for [n = 2] is never empty, so the index is in range. *)
Definition remoteIP (rq : Request) : string :=
  default EmptyString (SplitN (RemoteAddr rq) ":" 2 !! 0%nat).

(** [NewRouter] returns a router bound to the server. *)
Definition NewRouter (s : Server) : mux.Router :=
  let r := {| mux.pathPrefix := "/2009-04-04"; mux.routes := [] |} in
  let r := mux.HandleFunc "/meta-data/" (λ rq vars,
    HandleMetadata s) r in
  let r := mux.HandleFunc "/meta-data/hostname" (λ rq vars,
    HandleHostname s (remoteIP rq)) r in
  let r := mux.HandleFunc "/meta-data/instance-id" (λ rq vars,
    HandleInstanceID s (remoteIP rq)) r in
  let r := mux.HandleFunc "/meta-data/public-keys" (λ rq vars,
    Redirect rq "http://169.254.169.254/2009-04-04/meta-data/public-keys/"
      301) r in
  let r := mux.HandleFunc "/meta-data/public-keys/" (λ rq vars,
    HandlePublicKeys s (remoteIP rq)) r in
  let r := mux.HandleFunc "/meta-data/public-keys/{key}/" (λ rq vars,
    match Atoi (mux.Vars vars "key") with
    | Err _ => WriteHeader 500
    | Ok keyIdx => HandlePublicKey s (remoteIP rq) keyIdx
    end) r in
  let r := mux.HandleFunc "/meta-data/public-keys/{key}/openssh-key"
    (λ rq vars,
    match Atoi (mux.Vars vars "key") with
    | Err _ => WriteHeader 500
    | Ok keyIdx => HandlePublicKeyData s (remoteIP rq) keyIdx
    end) r in
  r.

(** Serving one request on a fresh response writer. *)
Definition serve (s : Server) (rq : Request) : Outcome unit :=
  mux.ServeHTTP (NewRouter s) rq newWorld.

(** [NewServer] creates a new server.  [TrimSpace] and [Parse] stand
    for [strings.TrimSpace] and for parsing a template named
    [userdata]; [template.Must] panics ([None]) when the trimmed text
    does not parse. *)
Definition NewServer (TrimSpace : string -> string)
  (Parse : string -> result Template)
  (vmreg : VMRegistryClient) (pub : PubkeyStoreClient) (text : string)
  : option Server :=
  match Parse (TrimSpace text) with
  | Ok t => Some {| vmregClient := vmreg; pubkeystoreClient := pub;
                    userDataTemplate := t |}
  | Err _ => None
  end.
End ec2server.

(** ** Package noclserver *)

Module noclserver.
Import gostd rpc nethttp.

Record Server :=
  { vmregClient : VMRegistryClient;
    pubkeystoreClient : PubkeyStoreClient;
    dnsName : string;
    userDataTemplate : Template }.

(** Modelled from the spec: the [Metadata] struct is declared in a
    file of the package that is not part of the sources at hand; the
    handler fills the fields [LocalHostname], [InstanceID] and
    [PublicKeys]. *)
Record Metadata :=
  { LocalHostname : string; InstanceID : string;
    PublicKeys : list string }.

(** A YAML document, before it is written out as text. *)
#[local] Unset Elimination Schemes.
Inductive Yaml :=
| YString (s : string)
| YSeq (l : list Yaml)
| YMap (l : list (string * Yaml)).
#[local] Set Elimination Schemes.

(** Modelled from the spec: the field tags of [Metadata] are part of
    the absent declaration; the spec gives a "map with keys
    local-hostname, instance-id, public-keys". *)
Definition Metadata_yaml (md : Metadata) : Yaml :=
  YMap [("local-hostname", YString (LocalHostname md));
        ("instance-id", YString (InstanceID md));
        ("public-keys", YSeq (YString <$> PublicKeys md))].

(** [NewServer] creates a new server; as in [ec2server], a template
    text that does not parse makes [template.Must] panic ([None]). *)
Definition NewServer (TrimSpace : string -> string)
  (Parse : string -> result Template)
  (vmreg : VMRegistryClient) (pub : PubkeyStoreClient) (dns text : string)
  : option Server :=
  match Parse (TrimSpace text) with
  | Ok t => Some {| vmregClient := vmreg; pubkeystoreClient := pub;
                    dnsName := dns; userDataTemplate := t |}
  | Err _ => None
  end.

Section WithYaml.
(** The text encoder of [yaml.v2], which may fail. *)
Variable yaml_encode : Yaml -> result string.

(** [yaml.Marshal(md)]. *)
Definition Marshal (md : Metadata) : result string :=
  yaml_encode (Metadata_yaml md).

(** [HandleMetadata] handles [/meta-data]. *)
Definition HandleMetadata (s : Server) (ip : string) : Handler unit :=
  r ← Find (vmregClient s) (findByIP ip);
  match r with
  | Err _ => WriteHeader 500
  | Ok vm =>
      r' ← GetKeys (pubkeystoreClient s) (keysOf vm);
      match r' with
      | Err _ => WriteHeader 500
      | Ok pkeys =>
          let keys :=
            imap (λ i key,
                    pubkeystorepb.Algo key +:+ " " +:+
                    pubkeystorepb.Pubkey key +:+ " " +:+
                    pubkeystorepb.Comment key)
              (pubkeystorepb.Keys pkeys) in
          let md := {| LocalHostname := vmregistrypb.Name vm;
                       InstanceID := "i-" +:+ vmregistrypb.Name vm;
                       PublicKeys := keys |} in
          match Marshal md with
          | Err _ => WriteHeader 500
          | Ok jsonData => Write jsonData
          end
      end
  end.

(** [HandleUserdata] handles [/user-data]; the error of [Execute]
    is not looked at. *)
Definition HandleUserdata (s : Server) (ip : string) : Handler unit :=
  r ← Find (vmregClient s) (findByIP ip);
  match r with
  | Err _ => WriteHeader 500
  | Ok vm =>
      r' ← GetKeys (pubkeystoreClient s) (keysOf vm);
      match r' with
      | Err _ => WriteHeader 500
      | Ok pkeys =>
          let keys :=
            imap (λ i key,
                    pubkeystorepb.Algo key +:+ " " +:+
                    pubkeystorepb.Pubkey key +:+ " " +:+
                    pubkeystorepb.Comment key)
              (pubkeystorepb.Keys pkeys) in
          let '(userData, _) :=
            Execute (userDataTemplate s)
              {| Hostname := vmregistrypb.Name vm +:+ "." +:+ dnsName s;
                 nethttp.PublicKeys := keys |} in
          Write userData
      end
  end.

Definition remoteIP (rq : Request) : string :=
  default EmptyString (SplitN (RemoteAddr rq) ":" 2 !! 0%nat).

(** [NewRouter] returns a router bound to the server. *)
Definition NewRouter (s : Server) : mux.Router :=
  let r := {| mux.pathPrefix := ""; mux.routes := [] |} in
  let r := mux.HandleFunc "/meta-data" (λ rq vars,
    HandleMetadata s (remoteIP rq)) r in
  let r := mux.HandleFunc "/user-data" (λ rq vars,
    HandleUserdata s (remoteIP rq)) r in
  r.

Definition serve (s : Server) (rq : Request) : Outcome unit :=
  mux.ServeHTTP (NewRouter s) rq newWorld.
End WithYaml.
End noclserver.

(** ** Package main: the serving mode chosen at start-up *)

Module main.
Import gostd rpc nethttp.

Section Startup.
Variable yaml_encode : noclserver.Yaml -> result string.
Variable vmregClient : VMRegistryClient.
Variable pubkeystoreClient : PubkeyStoreClient.
(** The flag [-dns-name], and the user-data template file once
    compiled by [NewServer]. *)
Variable dnsName : string.
Variable userDataTemplate : Template.

(** The router [main] serves, by the flag [-api-mode]; any other
    mode is fatal. *)
Definition router (apiMode : string) : option mux.Router :=
  if String.eqb apiMode "ec2" then
    let svr := {| ec2server.vmregClient := vmregClient;
                  ec2server.pubkeystoreClient := pubkeystoreClient;
                  ec2server.userDataTemplate := userDataTemplate |} in
    Some (ec2server.NewRouter svr)
  else if String.eqb apiMode "nocloud" then
    let svr := {| noclserver.vmregClient := vmregClient;
                  noclserver.pubkeystoreClient := pubkeystoreClient;
                  noclserver.dnsName := dnsName;
                  noclserver.userDataTemplate := userDataTemplate |} in
    Some (noclserver.NewRouter yaml_encode svr)
  else None.
End Startup.

(** The command-line flags. *)
Record Flags :=
  { listenAddress : string;
    credStoreAddress : string; credStoreCA : string;
    vmregistryAddress : string; vmregistryCA : string;
    pubkeystoreAddress : string; pubkeystoreCA : string;
    logHTTP : bool; apiMode : string;
    userDataTemplateFile : string; dnsName : string }.

(** The credential store client, as far as [main] uses it. *)
Record CredstoreClient :=
  { GetTokenForRemote : string -> result string }.

(** [vmregistryBearerClient] and [pubkeystoreBearerClient]: a generated
    client together with a token.  The context of a call is not part of
    this embedding, so the generated client is given as a function of
    the bearer token its calls carry. *)
Record vmregistryBearerClient :=
  { vmregistry_cli : string -> VMRegistryClient; vmregistry_tok : string }.

Record pubkeystoreBearerClient :=
  { pubkeystore_cli : string -> PubkeyStoreClient; pubkeystore_tok : string }.

(** [Find] and [GetKeys] of the bearer clients: the call of the
    generated client with the token attached ([client.WithBearerToken]).
    [List], [Create] and [Destroy] are not used by the servers. *)
Definition vmregistryBearerClient_Find (c : vmregistryBearerClient)
  : VMRegistryClient :=
  {| rpc.Find := λ calls rq,
       rpc.Find (vmregistry_cli c (vmregistry_tok c)) calls rq |}.

Definition pubkeystoreBearerClient_GetKeys (c : pubkeystoreBearerClient)
  : PubkeyStoreClient :=
  {| rpc.GetKeys := λ calls rq,
       rpc.GetKeys (pubkeystore_cli c (pubkeystore_tok c)) calls rq |}.

(** How [main] ends: a fatal log message, a panic, or serving a router
    on an address, with or without request logging. *)
Inductive Exit :=
| Fatalf (msg : string)
| Panics
| ListenAndServe (addr : string) (logged : bool) (r : mux.Router).

Section Main.
Variable yaml_encode : noclserver.Yaml -> result string.

(** The packages [main] calls.  [Conn] is a gRPC connection; [Error]
    is the text of an error, as [%v] prints it. *)
Variable Conn : Type.
Variable Error : error -> string.
Variable tracing_InitTracer : string -> string -> option error.
Variable client_NewCredstoreClient : string -> string -> result CredstoreClient.
Variable clienthelpers_NewGRPCConn :
  string -> string -> string -> string -> result Conn.
Variable vmregistrypb_NewVMRegistryClient : Conn -> string -> VMRegistryClient.
Variable pubkeystorepb_NewPubkeyStoreClient :
  Conn -> string -> PubkeyStoreClient.
Variable ioutil_ReadFile : string -> result string.
Variable strings_TrimSpace : string -> string.
Variable template_Parse : string -> result Template.

Variable flags : Flags.

Definition newVMRegistryClient (credstoreClient : CredstoreClient)
  : result VMRegistryClient :=
  match GetTokenForRemote credstoreClient (vmregistryAddress flags) with
  | Err err =>
      Err (ErrBackend ("failed to get vmregistry token: " +:+ Error err))
  | Ok tok =>
      match clienthelpers_NewGRPCConn (vmregistryAddress flags)
              (vmregistryCA flags) "" "" with
      | Err err => Err err
      | Ok conn =>
          Ok (vmregistryBearerClient_Find
                {| vmregistry_cli := vmregistrypb_NewVMRegistryClient conn;
                   vmregistry_tok := tok |})
      end
  end.

Definition newPubkeyStoreClient (credstoreClient : CredstoreClient)
  : result PubkeyStoreClient :=
  match GetTokenForRemote credstoreClient (pubkeystoreAddress flags) with
  | Err err =>
      Err (ErrBackend ("failed to get pubkeystore token: " +:+ Error err))
  | Ok tok =>
      match clienthelpers_NewGRPCConn (pubkeystoreAddress flags)
              (pubkeystoreCA flags) "" "" with
      | Err err => Err err
      | Ok conn =>
          Ok (pubkeystoreBearerClient_GetKeys
                {| pubkeystore_cli := pubkeystorepb_NewPubkeyStoreClient conn;
                   pubkeystore_tok := tok |})
      end
  end.

(** [main], up to the call of [http.ListenAndServe]. *)
Definition main : Exit :=
  match tracing_InitTracer (listenAddress flags) "metaserver" with
  | Some err => Fatalf ("failed to init tracing interface: " +:+ Error err)
  | None =>
  match client_NewCredstoreClient (credStoreAddress flags)
          (credStoreCA flags) with
  | Err err => Fatalf ("failed to init credstore: " +:+ Error err)
  | Ok credstoreClient =>
  match newVMRegistryClient credstoreClient with
  | Err err => Fatalf ("failed to connect to vmregistry: " +:+ Error err)
  | Ok vmregClient =>
  match newPubkeyStoreClient credstoreClient with
  | Err err => Fatalf ("failed to connect to pubkeystore: " +:+ Error err)
  | Ok pubkeystoreClient =>
  match ioutil_ReadFile (userDataTemplateFile flags) with
  | Err err =>
      Fatalf ("failed to read userdata template file: " +:+ Error err)
  | Ok userDataBytes =>
      if String.eqb (apiMode flags) "ec2" then
        match ec2server.NewServer strings_TrimSpace template_Parse
                vmregClient pubkeystoreClient userDataBytes with
        | None => Panics
        | Some svr =>
            ListenAndServe (listenAddress flags) (logHTTP flags)
              (ec2server.NewRouter svr)
        end
      else if String.eqb (apiMode flags) "nocloud" then
        match noclserver.NewServer strings_TrimSpace template_Parse
                vmregClient pubkeystoreClient (dnsName flags)
                userDataBytes with
        | None => Panics
        | Some svr =>
            ListenAndServe (listenAddress flags) (logHTTP flags)
              (noclserver.NewRouter yaml_encode svr)
        end
      else Fatalf ("unsupported api mode: " +:+ apiMode flags)
  end end end end end.
End Main.
End main.

(** ** Vocabulary of the statements *)

Module spec.
Import gostd rpc nethttp.

(** A handler that returned after sending status [code] and body
    [text] with no header of its own, having made the calls [trace]. *)
Definition reply (code : Z) (text : string) (trace : list Call)
  : Outcome unit :=
  Returned tt
    {| writer := {| status := Some code; header := ∅; body := text |};
       calls := trace |}.

(** The answer a backend gave to call [c] made after the calls [pre]
    was an error. *)
Definition failed (vmreg : VMRegistryClient) (pub : PubkeyStoreClient)
  (pre : list Call) (c : Call) : bool :=
  match c with
  | CallFind q =>
      match rpc.Find vmreg pre q with Err _ => true | Ok _ => false end
  | CallGetKeys q =>
      match rpc.GetKeys pub pre q with Err _ => true | Ok _ => false end
  end.

(** The one-line form of a key, ["algo material comment"]. *)
Definition opensshLine (k : pubkeystorepb.Key) : string :=
  pubkeystorepb.Algo k +:+ " " +:+ pubkeystorepb.Pubkey k +:+ " " +:+
  pubkeystorepb.Comment k.

(** The two calls of a handler that resolves [ip] to [vm] and then
    fetches its keys. *)
Definition lookupThenKeys (ip : string) (vm : vmregistrypb.VM) : list Call :=
  [CallFind (findByIP ip); CallGetKeys (keysOf vm)].

(** The document [HandleMetadata] of NoCloud builds for a VM and its
    keys. *)
Definition document (vm : vmregistrypb.VM)
  (pkeys : pubkeystorepb.GetKeysReply) : noclserver.Metadata :=
  {| noclserver.LocalHostname := vmregistrypb.Name vm;
     noclserver.InstanceID := "i-" +:+ vmregistrypb.Name vm;
     noclserver.PublicKeys := opensshLine <$> pubkeystorepb.Keys pkeys |}.

Definition hasColon (s : string) : Prop :=
  In ":"%char (list_ascii_of_string s).

(** Every registry lookup made while producing [o] was for the address
    [ip]. *)
Definition addressedTo (ip : string) (o : Outcome unit) : Prop :=
  forall q, CallFind q ∈ calls (final o) -> q = findByIP ip.

(** If some call made while producing [o] was answered with an error,
    nothing was called after it and [o] is an empty 500 response. *)
Definition failsClosed (vmreg : VMRegistryClient) (pub : PubkeyStoreClient)
  (o : Outcome unit) : Prop :=
  forall (pre : list Call) (c : Call) (post : list Call),
    calls (final o) = (pre ++ c :: post)%list ->
    failed vmreg pub pre c = true ->
    o = reply 500 EmptyString (pre ++ [c])%list.

(** A path segment: non-empty and without a slash. *)
Definition isSegment (s : string) : Prop :=
  s <> EmptyString /\ ~ In "/"%char (list_ascii_of_string s).

(** The calls of one request: none, the registry lookup alone, or the
    lookup followed by one key fetch for the VM the registry
    returned. *)
Definition oneLookupOneFetch (vmreg : VMRegistryClient) (ip : string)
  (trace : list Call) : Prop :=
  trace = [] \/ trace = [CallFind (findByIP ip)] \/
  exists vm, rpc.Find vmreg [] (findByIP ip) = Ok vm /\
             trace = lookupThenKeys ip vm.

(** The ways a request can end: status 200, 301 or 404; status 500
    with no body and no header; or a panic before anything was
    written. *)
Definition allOrNothing (o : Outcome unit) : Prop :=
  match o with
  | Returned _ σ =>
      status (writer σ) = Some 200 \/ status (writer σ) = Some 301 \/
      status (writer σ) = Some 404 \/
      (status (writer σ) = Some 500 /\ body (writer σ) = EmptyString /\
       header (writer σ) = ∅)
  | Panicked σ => writer σ = newResponse
  end.

(** The response for a path no route matches. *)
Definition notFound : Outcome unit :=
  Returned tt
    {| writer :=
         {| status := Some 404;
            header := {[ "Content-Type" := ["text/plain; charset=utf-8"];
                         "X-Content-Type-Options" := ["nosniff"] ]};
            body := "404 page not found" +:+ LF |};
       calls := [] |}.
End spec.

(** ** The scenario of the specification, for concrete checks *)

Module scenario.
Import gostd rpc nethttp noclserver.

Definition vm42 : vmregistrypb.VM := {| vmregistrypb.Name := "vm-42" |}.

Definition k0 : pubkeystorepb.Key :=
  {| pubkeystorepb.Name := "k0"; pubkeystorepb.Algo := "ssh-rsa";
     pubkeystorepb.Pubkey := "AAAA..."; pubkeystorepb.Comment := "host1" |}.

(** The registry knows [10.0.0.5] only. *)
Definition registry : VMRegistryClient :=
  {| rpc.Find := λ _ rq,
       if String.eqb (vmregistrypb.Value rq) "10.0.0.5"
       then Ok vm42 else Err (ErrBackend "not found") |}.

(** The key store has one key for [vm-42] and fails for [vm-bad]. *)
Definition keystore : PubkeyStoreClient :=
  {| rpc.GetKeys := λ _ rq,
       if String.eqb (pubkeystorepb.VmName rq) "vm-42"
       then Ok {| pubkeystorepb.Keys := [k0] |}
       else Err (ErrBackend "unavailable") |}.

(** A registry that resolves every address to [vm-bad]. *)
Definition registryBad : VMRegistryClient :=
  {| rpc.Find := λ _ rq, Ok {| vmregistrypb.Name := "vm-bad" |} |}.

(** A template that prints the host name and then the keys, one per
    line. *)
Definition template : Template :=
  {| Execute := λ d,
       ("host " +:+ Hostname d +:+ LF +:+
        Join (nethttp.PublicKeys d) LF, None) |}.

Definition ec2 : ec2server.Server :=
  {| ec2server.vmregClient := registry;
     ec2server.pubkeystoreClient := keystore;
     ec2server.userDataTemplate := template |}.

Definition ec2Bad : ec2server.Server :=
  {| ec2server.vmregClient := registryBad;
     ec2server.pubkeystoreClient := keystore;
     ec2server.userDataTemplate := template |}.

Definition nocloud : noclserver.Server :=
  {| vmregClient := registry; pubkeystoreClient := keystore;
     dnsName := "example.org"; userDataTemplate := template |}.

(** A block-style YAML printer for maps of scalars and of lists of
    scalars; deeper nesting is an encoding error. *)
Definition scalar (y : Yaml) : result string :=
  match y with
  | YString s => Ok s
  | _ => Err (ErrEncode "not a scalar")
  end.

Definition items (l : list Yaml) : result string :=
  foldr (λ y acc,
    match scalar y, acc with
    | Ok s, Ok t => Ok ("- " +:+ s +:+ LF +:+ t)
    | Err e, _ => Err e
    | _, Err e => Err e
    end) (Ok EmptyString) l.

Definition entry (kv : string * Yaml) : result string :=
  match kv.2 with
  | YString s => Ok (kv.1 +:+ ": " +:+ s +:+ LF)
  | YSeq l =>
      match items l with
      | Ok t => Ok (kv.1 +:+ ":" +:+ LF +:+ t)
      | Err e => Err e
      end
  | YMap _ => Err (ErrEncode "nested map")
  end.

Definition blockYaml (y : Yaml) : result string :=
  match y with
  | YMap l =>
      foldr (λ kv acc,
        match entry kv, acc with
        | Ok s, Ok t => Ok (s +:+ t)
        | Err e, _ => Err e
        | _, Err e => Err e
        end) (Ok EmptyString) l
  | _ => Err (ErrEncode "not a map")
  end.

Definition GET (path addr : string) : Request :=
  {| Method := "GET"; URL_Path := path; RemoteAddr := addr |}.

(** A start-up environment: the flags' defaults for the addresses, the
    NoCloud mode, a credential store that issues a token per address,
    backends that answer only to their own token, and a template file
    with blank space around its text. *)
Definition flags : main.Flags :=
  {| main.listenAddress := "127.0.0.1:8080";
     main.credStoreAddress := "127.0.0.1:9002"; main.credStoreCA := "";
     main.vmregistryAddress := "127.0.0.1:9000"; main.vmregistryCA := "";
     main.pubkeystoreAddress := "127.0.0.1:9001"; main.pubkeystoreCA := "";
     main.logHTTP := true; main.apiMode := "nocloud";
     main.userDataTemplateFile := "/etc/metaserver/user-data";
     main.dnsName := "example.org" |}.

Definition errorText (e : error) : string :=
  match e with
  | ErrSyntax => "invalid syntax"
  | ErrRange => "value out of range"
  | ErrBackend msg => msg
  | ErrEncode msg => msg
  end.

Definition credstore : main.CredstoreClient :=
  {| main.GetTokenForRemote := λ addr, Ok ("token for " +:+ addr) |}.

Definition unauthenticated : error := ErrBackend "unauthenticated".

Definition registryAt (conn tok : string) : VMRegistryClient :=
  if String.eqb tok ("token for " +:+ conn) then registry
  else {| rpc.Find := λ _ _, Err unauthenticated |}.

Definition keystoreAt (conn tok : string) : PubkeyStoreClient :=
  if String.eqb tok ("token for " +:+ conn) then keystore
  else {| rpc.GetKeys := λ _ _, Err unauthenticated |}.

Definition readFile (name : string) : result string :=
  if String.eqb name "/etc/metaserver/user-data"
  then Ok (" host" +:+ LF)
  else Err (ErrBackend "no such file").

Fixpoint trimLeft (s : string) : string :=
  match s with
  | String c s' =>
      if Ascii.eqb c " " || Ascii.eqb c "010" then trimLeft s' else s
  | EmptyString => s
  end.

Definition trimSpace (s : string) : string :=
  String.rev (trimLeft (String.rev (trimLeft s))).

Definition parse (text : string) : result Template :=
  if String.eqb text "host" then Ok template
  else Err (ErrBackend "template: userdata: unexpected text").

Definition startup (f : main.Flags) : main.Exit :=
  main.main blockYaml string errorText (λ _ _, None) (λ _ _, Ok credstore)
    (λ addr _ _ _, Ok addr) registryAt keystoreAt readFile trimSpace parse f.
End scenario.

(** * Properties *)

Import gostd rpc nethttp spec.
Local Open Scope list_scope.

(** ** Splitting the remote address *)

Section RemoteAddress.

Lemma CutPrefix_colon (c : ascii) (s : string) :
  CutPrefix ":" (String c s) = if Ascii.eqb ":" c then Some s else None.
Proof. reflexivity. Qed.

Lemma hasColon_cons (c : ascii) (s : string) :
  hasColon (String c s) <-> c = ":"%char \/ hasColon s.
Proof.
  unfold hasColon; simpl. split; intros [H | H]; auto.
Qed.

(** [Cut] finds the first colon: what is before it has none. *)
Lemma Cut_colon_Some (s before after : string) :
  Cut s ":" = Some (before, after) ->
  ~ hasColon before /\ s = before +:+ ":" +:+ after.
Proof.
  revert before after; induction s as [| c s IH]; intros before after.
  - simpl. discriminate.
  - cbn [Cut]. rewrite CutPrefix_colon.
    destruct (Ascii.eqb ":" c) eqn:Ec.
    + apply Ascii.eqb_eq in Ec; subst c.
      intros [= <- <-]. split; [intros [] | reflexivity].
    + destruct (Cut s ":") as [[b a] |] eqn:Es; [| discriminate].
      intros [= <- <-]. destruct (IH b a eq_refl) as [Hb ->].
      split; [| reflexivity].
      rewrite hasColon_cons. intros [-> | H]; [| tauto].
      rewrite Ascii.eqb_refl in Ec. discriminate.
Qed.

Lemma Cut_colon_None (s : string) : Cut s ":" = None -> ~ hasColon s.
Proof.
  induction s as [| c s IH]; [intros _ [] |].
  cbn [Cut]. rewrite CutPrefix_colon.
  destruct (Ascii.eqb ":" c) eqn:Ec; [discriminate |].
  destruct (Cut s ":") as [[b a] |]; [discriminate |].
  intros _. rewrite hasColon_cons. intros [-> | H]; [| tauto].
  rewrite Ascii.eqb_refl in Ec. discriminate.
Qed.

(** [SplitN(addr, ":", 2)] has a first element, so indexing it at 0
    does not panic. *)
Lemma SplitN_colon_2_first (addr : string) :
  is_Some (SplitN addr ":" 2 !! 0%nat).
Proof.
  cbn [SplitN]. destruct (Cut addr ":") as [[b a] |]; simpl; eauto.
Qed.

(** The address handed to the handlers is the remote address up to
    its first colon. *)
Lemma remoteIP_spec (rq : Request) :
  let ip := ec2server.remoteIP rq in
  ~ hasColon ip /\
  (RemoteAddr rq = ip \/ exists port, RemoteAddr rq = ip +:+ ":" +:+ port).
Proof.
  unfold ec2server.remoteIP. cbn [SplitN].
  destruct (Cut (RemoteAddr rq) ":") as [[b a] |] eqn:E; simpl.
  - apply Cut_colon_Some in E as [Hb ->]. eauto.
  - apply Cut_colon_None in E. auto.
Qed.

Lemma noclserver_remoteIP (rq : Request) :
  noclserver.remoteIP rq = ec2server.remoteIP rq.
Proof. reflexivity. Qed.

End RemoteAddress.

(** ** Routing *)

Section Routing.

Lemma firstMatch_Some (prefix path : string) (rts : list mux.Route)
  (rt : mux.Route) (vars : gmap string string) :
  mux.firstMatch prefix path rts = Some (rt, vars) -> rt ∈ rts.
Proof.
  induction rts as [| r rts IH]; simpl; [discriminate |].
  destruct (mux.matchRoute prefix path r).
  - intros [= <- <-]. left.
  - intros H. right. auto.
Qed.

(** Whatever the path, a request ends in one of the registered
    handlers or in [NotFound]. *)
Lemma ServeHTTP_cases (P : Outcome unit -> Prop) (r : mux.Router)
  (rq : Request) :
  (forall rt vars, rt ∈ mux.routes r ->
                   P (mux.handlerFunc rt rq vars newWorld)) ->
  P (NotFound newWorld) ->
  P (mux.ServeHTTP r rq newWorld).
Proof.
  intros Hroutes Hnf. unfold mux.ServeHTTP.
  destruct (mux.firstMatch _ _ _) as [[rt vars] |] eqn:E; [| exact Hnf].
  apply Hroutes. eapply firstMatch_Some; eauto.
Qed.

Variable yaml_encode : noclserver.Yaml -> result string.
Variable e : ec2server.Server.
Variable n : noclserver.Server.
Variable rq : Request.

Ltac route H := unfold ec2server.serve, noclserver.serve, mux.ServeHTTP;
  rewrite H; reflexivity.

Lemma ec2_route_root :
  URL_Path rq = "/2009-04-04/meta-data/" ->
  ec2server.serve e rq = ec2server.HandleMetadata e newWorld.
Proof. intros H. route H. Qed.

Lemma ec2_route_hostname :
  URL_Path rq = "/2009-04-04/meta-data/hostname" ->
  ec2server.serve e rq
  = ec2server.HandleHostname e (ec2server.remoteIP rq) newWorld.
Proof. intros H. route H. Qed.

Lemma ec2_route_instance_id :
  URL_Path rq = "/2009-04-04/meta-data/instance-id" ->
  ec2server.serve e rq
  = ec2server.HandleInstanceID e (ec2server.remoteIP rq) newWorld.
Proof. intros H. route H. Qed.

Lemma ec2_route_redirect :
  URL_Path rq = "/2009-04-04/meta-data/public-keys" ->
  ec2server.serve e rq
  = Redirect rq "http://169.254.169.254/2009-04-04/meta-data/public-keys/"
      301 newWorld.
Proof. intros H. route H. Qed.

Lemma ec2_route_public_keys :
  URL_Path rq = "/2009-04-04/meta-data/public-keys/" ->
  ec2server.serve e rq
  = ec2server.HandlePublicKeys e (ec2server.remoteIP rq) newWorld.
Proof. intros H. route H. Qed.

Lemma nocloud_route_metadata :
  URL_Path rq = "/meta-data" ->
  noclserver.serve yaml_encode n rq
  = noclserver.HandleMetadata yaml_encode n (noclserver.remoteIP rq) newWorld.
Proof. intros H. route H. Qed.

Lemma nocloud_route_userdata :
  URL_Path rq = "/user-data" ->
  noclserver.serve yaml_encode n rq
  = noclserver.HandleUserdata n (noclserver.remoteIP rq) newWorld.
Proof. intros H. route H. Qed.

Lemma CutPrefix_app (p s : string) : CutPrefix p (p +:+ s) = Some s.
Proof.
  induction p as [| c p IH]; simpl; [reflexivity |].
  rewrite Ascii.eqb_refl. exact IH.
Qed.


Lemma segment_app (seg rest : string) :
  ~ In "/"%char (list_ascii_of_string seg) ->
  mux.segment (seg +:+ String "/" rest) = (seg, String "/" rest).
Proof.
  induction seg as [| c seg IH]; simpl; [reflexivity |].
  intros H. destruct (Ascii.eqb c "/") eqn:Ec.
  - apply Ascii.eqb_eq in Ec. tauto.
  - rewrite IH by tauto. reflexivity.
Qed.

(** The two templates with a variable, matched against a path whose
    index segment is [idx]. *)
Lemma matchParts_key (idx lit child : string) :
  isSegment idx ->
  mux.matchParts
    [mux.Lit "/2009-04-04/meta-data/public-keys/"; mux.Var "key";
     mux.Lit lit]
    ("/2009-04-04/meta-data/public-keys/" +:+ idx +:+ String "/" child) ∅
  = match CutPrefix lit (String "/" child) with
    | Some EmptyString => Some {[ "key" := idx ]}
    | _ => None
    end.
Proof.
  intros [Hne Hs]. cbn [mux.matchParts].
  rewrite CutPrefix_app, segment_app by assumption.
  destruct idx as [| c idx]; [congruence |].
  destruct (CutPrefix lit _) as [[| c' rest] |]; reflexivity.
Qed.

Ltac route_step :=
  match goal with
  | |- context [mux.matchRoute ?p ?s ?r] =>
      first
        [ change (mux.matchRoute p s r) with (@None (gmap string string))
        | let t := eval vm_compute in
              (mux.parseTemplate (p +:+ mux.template r) false "") in
          change (mux.matchRoute p s r) with (mux.matchParts t s ∅);
          rewrite matchParts_key by (split; assumption) ]
  end.

Lemma ec2_route_public_key (idx : string) :
  isSegment idx ->
  URL_Path rq = "/2009-04-04/meta-data/public-keys/" +:+ idx +:+ "/" ->
  ec2server.serve e rq
  = match Atoi idx with
    | Err _ => WriteHeader 500 newWorld
    | Ok keyIdx =>
        ec2server.HandlePublicKey e (ec2server.remoteIP rq) keyIdx newWorld
    end.
Proof.
  intros [Hne Hs] Hpath.
  unfold ec2server.serve, mux.ServeHTTP. rewrite Hpath.
  cbn [ec2server.NewRouter mux.routes mux.pathPrefix mux.HandleFunc app
       mux.firstMatch].
  destruct idx as [| c idx]; [congruence |].
  repeat route_step. cbn [CutPrefix]. rewrite Ascii.eqb_refl.
  cbn [mux.handlerFunc]. unfold mux.Vars.
  rewrite lookup_singleton_eq. cbn [default from_option id].
  destruct (Atoi (String c idx)); reflexivity.
Qed.

Lemma ec2_route_public_key_data (idx : string) :
  isSegment idx ->
  URL_Path rq
  = "/2009-04-04/meta-data/public-keys/" +:+ idx +:+ "/openssh-key" ->
  ec2server.serve e rq
  = match Atoi idx with
    | Err _ => WriteHeader 500 newWorld
    | Ok keyIdx =>
        ec2server.HandlePublicKeyData e (ec2server.remoteIP rq) keyIdx
          newWorld
    end.
Proof.
  intros [Hne Hs] Hpath.
  unfold ec2server.serve, mux.ServeHTTP. rewrite Hpath.
  cbn [ec2server.NewRouter mux.routes mux.pathPrefix mux.HandleFunc app
       mux.firstMatch].
  destruct idx as [| c idx]; [congruence |].
  repeat route_step. cbn [CutPrefix]. rewrite !Ascii.eqb_refl.
  cbn [mux.handlerFunc]. unfold mux.Vars.
  rewrite lookup_singleton_eq. cbn [default from_option id].
  destruct (Atoi (String c idx)); reflexivity.
Qed.

End Routing.

(** ** The handlers, case by case *)

Ltac run :=
  unfold ec2server.HandleMetadata, ec2server.HandleHostname,
    ec2server.HandleInstanceID, ec2server.HandlePublicKeys,
    ec2server.HandlePublicKey, ec2server.HandlePublicKeyData,
    noclserver.HandleMetadata, noclserver.HandleUserdata,
    ec2server.renderString, ec2server.renderList, Redirect, NotFound,
    Write, WriteHeader, onWriter, Find, GetKeys, panic,
    mbind, mret, Handler_bind, Handler_ret;
  cbn [newWorld writer calls app final].

Ltac split_trace pre :=
  destruct pre as [| ? [| ? [| ? pre]]]; simplify_eq/=.

Ltac closed_case :=
  let pre := fresh "pre" in
  let Hc := fresh "Hc" in
  let Hf := fresh "Hf" in
  intros pre ? ? Hc Hf; cbn [final calls] in Hc; split_trace pre;
  unfold failed in Hf;
  repeat match goal with
    | E : rpc.Find _ _ _ = _ |- _ => rewrite E in Hf
    | E : rpc.GetKeys _ _ _ = _ |- _ => rewrite E in Hf
    end;
  first [discriminate Hf | reflexivity].

Ltac addressed_case :=
  let Hq := fresh "Hq" in
  intros ? Hq; cbn [final calls] in Hq; apply list_elem_of_In in Hq;
  simpl in Hq; intuition congruence.

Section Handlers.

Variable yaml_encode : noclserver.Yaml -> result string.
Variable e : ec2server.Server.
Variable n : noclserver.Server.
Variable ip : string.

Lemma HandleHostname_failsClosed :
  failsClosed (ec2server.vmregClient e) (ec2server.pubkeystoreClient e)
    (ec2server.HandleHostname e ip newWorld).
Proof.
  run. destruct (rpc.Find _ _ _) eqn:EF; closed_case.
Qed.

Lemma HandleInstanceID_failsClosed :
  failsClosed (ec2server.vmregClient e) (ec2server.pubkeystoreClient e)
    (ec2server.HandleInstanceID e ip newWorld).
Proof.
  run. destruct (rpc.Find _ _ _) eqn:EF; closed_case.
Qed.

Lemma HandlePublicKeys_failsClosed :
  failsClosed (ec2server.vmregClient e) (ec2server.pubkeystoreClient e)
    (ec2server.HandlePublicKeys e ip newWorld).
Proof.
  run. destruct (rpc.Find _ _ _) eqn:EF; [| closed_case].
  cbn [calls]. destruct (rpc.GetKeys _ _ _) eqn:EG; closed_case.
Qed.

Lemma HandlePublicKey_failsClosed (keyIdx : Z) :
  failsClosed (ec2server.vmregClient e) (ec2server.pubkeystoreClient e)
    (ec2server.HandlePublicKey e ip keyIdx newWorld).
Proof.
  run. destruct (rpc.Find _ _ _) eqn:EF; [| closed_case].
  cbn [calls]. destruct (rpc.GetKeys _ _ _) eqn:EG; [| closed_case].
  destruct (keyIdx >=? _); closed_case.
Qed.

Lemma HandlePublicKeyData_failsClosed (keyIdx : Z) :
  failsClosed (ec2server.vmregClient e) (ec2server.pubkeystoreClient e)
    (ec2server.HandlePublicKeyData e ip keyIdx newWorld).
Proof.
  run. destruct (rpc.Find _ _ _) eqn:EF; [| closed_case].
  cbn [calls]. destruct (rpc.GetKeys _ _ _) eqn:EG; [| closed_case].
  destruct (keyIdx >=? _); [closed_case |].
  destruct (index _ _); closed_case.
Qed.

Lemma nocloud_HandleMetadata_failsClosed :
  failsClosed (noclserver.vmregClient n) (noclserver.pubkeystoreClient n)
    (noclserver.HandleMetadata yaml_encode n ip newWorld).
Proof.
  run. destruct (rpc.Find _ _ _) eqn:EF; [| closed_case].
  cbn [calls]. destruct (rpc.GetKeys _ _ _) eqn:EG; [| closed_case].
  destruct (noclserver.Marshal _ _); closed_case.
Qed.

Lemma nocloud_HandleUserdata_failsClosed :
  failsClosed (noclserver.vmregClient n) (noclserver.pubkeystoreClient n)
    (noclserver.HandleUserdata n ip newWorld).
Proof.
  run. destruct (rpc.Find _ _ _) eqn:EF; [| closed_case].
  cbn [calls]. destruct (rpc.GetKeys _ _ _) eqn:EG; [| closed_case].
  destruct (Execute _ _); closed_case.
Qed.

Lemma HandleHostname_addressedTo :
  addressedTo ip (ec2server.HandleHostname e ip newWorld).
Proof. run. destruct (rpc.Find _ _ _); addressed_case. Qed.

Lemma HandleInstanceID_addressedTo :
  addressedTo ip (ec2server.HandleInstanceID e ip newWorld).
Proof. run. destruct (rpc.Find _ _ _); addressed_case. Qed.

Lemma HandlePublicKeys_addressedTo :
  addressedTo ip (ec2server.HandlePublicKeys e ip newWorld).
Proof.
  run. destruct (rpc.Find _ _ _); [| addressed_case].
  cbn [calls]. destruct (rpc.GetKeys _ _ _); addressed_case.
Qed.

Lemma HandlePublicKey_addressedTo (keyIdx : Z) :
  addressedTo ip (ec2server.HandlePublicKey e ip keyIdx newWorld).
Proof.
  run. destruct (rpc.Find _ _ _); [| addressed_case].
  cbn [calls]. destruct (rpc.GetKeys _ _ _); [| addressed_case].
  destruct (keyIdx >=? _); addressed_case.
Qed.

Lemma HandlePublicKeyData_addressedTo (keyIdx : Z) :
  addressedTo ip (ec2server.HandlePublicKeyData e ip keyIdx newWorld).
Proof.
  run. destruct (rpc.Find _ _ _); [| addressed_case].
  cbn [calls]. destruct (rpc.GetKeys _ _ _); [| addressed_case].
  destruct (keyIdx >=? _); [addressed_case |].
  destruct (index _ _); addressed_case.
Qed.

Lemma nocloud_HandleMetadata_addressedTo :
  addressedTo ip (noclserver.HandleMetadata yaml_encode n ip newWorld).
Proof.
  run. destruct (rpc.Find _ _ _); [| addressed_case].
  cbn [calls]. destruct (rpc.GetKeys _ _ _); [| addressed_case].
  destruct (noclserver.Marshal _ _); addressed_case.
Qed.

Lemma nocloud_HandleUserdata_addressedTo :
  addressedTo ip (noclserver.HandleUserdata n ip newWorld).
Proof.
  run. destruct (rpc.Find _ _ _); [| addressed_case].
  cbn [calls]. destruct (rpc.GetKeys _ _ _); [| addressed_case].
  destruct (Execute _ _); addressed_case.
Qed.

(** Handlers that call no backend. *)
Lemma silent_failsClosed (vmreg : VMRegistryClient) (pub : PubkeyStoreClient)
  (o : Outcome unit) :
  calls (final o) = [] -> failsClosed vmreg pub o.
Proof.
  intros H pre c post Hc. rewrite H in Hc. destruct pre; discriminate.
Qed.

Lemma silent_addressedTo (o : Outcome unit) :
  calls (final o) = [] -> addressedTo ip o.
Proof. intros H q Hq. rewrite H in Hq. set_solver. Qed.

Lemma Redirect_silent (rq : Request) (url : string) (code : Z) :
  calls (final (Redirect rq url code newWorld)) = [].
Proof.
  unfold Redirect. cbn [newWorld writer newResponse header].
  rewrite lookup_empty.
  destruct (String.eqb (Method rq) "GET"), (String.eqb (Method rq) "HEAD");
    reflexivity.
Qed.

Lemma NotFound_silent : calls (final (NotFound newWorld)) = [].
Proof. reflexivity. Qed.

Lemma WriteHeader_silent (code : Z) :
  calls (final (WriteHeader code newWorld)) = [].
Proof. reflexivity. Qed.

Lemma ec2_HandleMetadata_silent :
  calls (final (ec2server.HandleMetadata e newWorld)) = [].
Proof. reflexivity. Qed.

End Handlers.

(** ** Every route of both routers *)

Section Routers.

Variable yaml_encode : noclserver.Yaml -> result string.
Variable e : ec2server.Server.
Variable n : noclserver.Server.

Lemma ec2_routes_failsClosed (rt : mux.Route) (rq : Request)
  (vars : gmap string string) :
  rt ∈ mux.routes (ec2server.NewRouter e) ->
  failsClosed (ec2server.vmregClient e) (ec2server.pubkeystoreClient e)
    (mux.handlerFunc rt rq vars newWorld).
Proof.
  intros Hrt. apply list_elem_of_In in Hrt. simpl in Hrt.
  destruct Hrt as [<- | [<- | [<- | [<- | [<- | [<- | [<- | []]]]]]]];
    cbn [mux.handlerFunc].
  - apply silent_failsClosed, ec2_HandleMetadata_silent.
  - apply HandleHostname_failsClosed.
  - apply HandleInstanceID_failsClosed.
  - apply silent_failsClosed, Redirect_silent.
  - apply HandlePublicKeys_failsClosed.
  - destruct (Atoi _).
    + apply HandlePublicKey_failsClosed.
    + apply silent_failsClosed, WriteHeader_silent.
  - destruct (Atoi _).
    + apply HandlePublicKeyData_failsClosed.
    + apply silent_failsClosed, WriteHeader_silent.
Qed.

Lemma ec2_routes_addressedTo (rt : mux.Route) (rq : Request)
  (vars : gmap string string) :
  rt ∈ mux.routes (ec2server.NewRouter e) ->
  addressedTo (ec2server.remoteIP rq) (mux.handlerFunc rt rq vars newWorld).
Proof.
  intros Hrt. apply list_elem_of_In in Hrt. simpl in Hrt.
  destruct Hrt as [<- | [<- | [<- | [<- | [<- | [<- | [<- | []]]]]]]];
    cbn [mux.handlerFunc].
  - apply silent_addressedTo, ec2_HandleMetadata_silent.
  - apply HandleHostname_addressedTo.
  - apply HandleInstanceID_addressedTo.
  - apply silent_addressedTo, Redirect_silent.
  - apply HandlePublicKeys_addressedTo.
  - destruct (Atoi _).
    + apply HandlePublicKey_addressedTo.
    + apply silent_addressedTo, WriteHeader_silent.
  - destruct (Atoi _).
    + apply HandlePublicKeyData_addressedTo.
    + apply silent_addressedTo, WriteHeader_silent.
Qed.

Lemma nocloud_routes_failsClosed (rt : mux.Route) (rq : Request)
  (vars : gmap string string) :
  rt ∈ mux.routes (noclserver.NewRouter yaml_encode n) ->
  failsClosed (noclserver.vmregClient n) (noclserver.pubkeystoreClient n)
    (mux.handlerFunc rt rq vars newWorld).
Proof.
  intros Hrt. apply list_elem_of_In in Hrt. simpl in Hrt.
  destruct Hrt as [<- | [<- | []]]; cbn [mux.handlerFunc].
  - apply nocloud_HandleMetadata_failsClosed.
  - apply nocloud_HandleUserdata_failsClosed.
Qed.

Lemma nocloud_routes_addressedTo (rt : mux.Route) (rq : Request)
  (vars : gmap string string) :
  rt ∈ mux.routes (noclserver.NewRouter yaml_encode n) ->
  addressedTo (ec2server.remoteIP rq) (mux.handlerFunc rt rq vars newWorld).
Proof.
  intros Hrt. apply list_elem_of_In in Hrt. simpl in Hrt.
  destruct Hrt as [<- | [<- | []]]; cbn [mux.handlerFunc].
  - apply nocloud_HandleMetadata_addressedTo.
  - apply nocloud_HandleUserdata_addressedTo.
Qed.

End Routers.

(** In either mode the router is built over the clients [main] was
    started with. *)
Lemma router_modes yaml_encode vmreg pub dns tpl (apiMode : string)
  (r : mux.Router) :
  main.router yaml_encode vmreg pub dns tpl apiMode = Some r ->
  (exists e, r = ec2server.NewRouter e /\
             ec2server.vmregClient e = vmreg /\
             ec2server.pubkeystoreClient e = pub) \/
  (exists n, r = noclserver.NewRouter yaml_encode n /\
             noclserver.vmregClient n = vmreg /\
             noclserver.pubkeystoreClient n = pub /\
             noclserver.dnsName n = dns /\
             noclserver.userDataTemplate n = tpl).
Proof.
  unfold main.router.
  destruct (String.eqb apiMode "ec2"); [intros [= <-]; left; eauto |].
  destruct (String.eqb apiMode "nocloud"); [| discriminate].
  intros [= <-]. right. eexists. repeat split.
Qed.

(** ** Backend errors (C6) *)

(** C6. In both serving modes and for every request, whatever handler
    it is routed to: if a call to the VM registry or to the key store
    made while serving the request is answered with an error, then the
    handler returns a response with status 500 and an empty body, and
    the failed call is the last call made (the body is never partial,
    and nothing is retried). *)
Theorem C6_backend_error_gives_empty_500
  yaml_encode vmreg pub dns tpl (apiMode : string) (r : mux.Router)
  (rq : Request) (pre post : list Call) (c : Call) :
  main.router yaml_encode vmreg pub dns tpl apiMode = Some r ->
  calls (final (mux.ServeHTTP r rq newWorld)) = pre ++ c :: post ->
  failed vmreg pub pre c = true ->
  mux.ServeHTTP r rq newWorld = reply 500 EmptyString (pre ++ [c])
  /\ post = [].
Proof.
  intros Hr Hc Hf.
  assert (failsClosed vmreg pub (mux.ServeHTTP r rq newWorld)) as Hclosed.
  { apply router_modes in Hr
      as [(e & -> & <- & <-) | (n & -> & <- & <- & _)];
      apply ServeHTTP_cases.
    - intros rt vars. apply ec2_routes_failsClosed.
    - apply silent_failsClosed, NotFound_silent.
    - intros rt vars. apply nocloud_routes_failsClosed.
    - apply silent_failsClosed, NotFound_silent. }
  pose proof (Hclosed pre c post Hc Hf) as Heq. split; [exact Heq |].
  rewrite Heq in Hc. cbn in Hc.
  apply (f_equal length) in Hc as Hlen.
  rewrite !length_app in Hlen. cbn in Hlen.
  destruct post; [reflexivity | cbn in Hlen; lia].
Qed.

(** The scenario of the specification: nothing is known about
    [192.168.1.1], and the host name endpoint answers with an empty
    500 after the one failed lookup. *)
Lemma C6_backend_error_gives_empty_500_witness :
  mux.ServeHTTP (ec2server.NewRouter scenario.ec2)
    (scenario.GET "/2009-04-04/meta-data/hostname" "192.168.1.1:4711")
    newWorld
  = reply 500 EmptyString [CallFind (findByIP "192.168.1.1")].
Proof.
  exact (proj1 (C6_backend_error_gives_empty_500 scenario.blockYaml
    scenario.registry scenario.keystore "example.org" scenario.template
    "ec2" (ec2server.NewRouter scenario.ec2)
    (scenario.GET "/2009-04-04/meta-data/hostname" "192.168.1.1:4711")
    [] [] (CallFind (findByIP "192.168.1.1"))
    eq_refl eq_refl eq_refl)).
Defined.

(** The same for a key store failure: the registry answers, the key
    store does not, and the listing endpoint stops there. *)
Example key_fetch_error_listing :
  ec2server.serve scenario.ec2Bad
    (scenario.GET "/2009-04-04/meta-data/public-keys/" "10.0.0.5:4711")
  = reply 500 EmptyString
      [CallFind (findByIP "10.0.0.5");
       CallGetKeys {| pubkeystorepb.VmName := "vm-bad" |}].
Proof. reflexivity. Qed.

(** ** The caller address (C9) *)

(** C9. In both serving modes and for every request, every lookup sent
    to the VM registry while serving it is a lookup by IP whose value is
    [strings.SplitN(RemoteAddr, ":", 2)[0]]: it contains no colon, and
    the remote address is either that value itself or that value
    followed by a colon and the rest. *)
Theorem C9_lookup_uses_address_before_first_colon
  yaml_encode vmreg pub dns tpl (apiMode : string) (r : mux.Router)
  (rq : Request) (q : vmregistrypb.FindRequest) :
  main.router yaml_encode vmreg pub dns tpl apiMode = Some r ->
  CallFind q ∈ calls (final (mux.ServeHTTP r rq newWorld)) ->
  let ip := vmregistrypb.Value q in
  q = findByIP ip /\
  SplitN (RemoteAddr rq) ":" 2 !! 0%nat = Some ip /\
  ~ hasColon ip /\
  (RemoteAddr rq = ip \/ exists port, RemoteAddr rq = ip +:+ ":" +:+ port).
Proof.
  intros Hr Hq.
  assert (addressedTo (ec2server.remoteIP rq) (mux.ServeHTTP r rq newWorld))
    as Haddr.
  { apply router_modes in Hr as [(e & -> & _) | (n & -> & _)];
      apply ServeHTTP_cases.
    - intros rt vars. apply ec2_routes_addressedTo.
    - apply silent_addressedTo, NotFound_silent.
    - intros rt vars. apply nocloud_routes_addressedTo.
    - apply silent_addressedTo, NotFound_silent. }
  apply Haddr in Hq. subst q. cbn [findByIP vmregistrypb.Value].
  split; [reflexivity |].
  split.
  - unfold ec2server.remoteIP.
    destruct (SplitN_colon_2_first (RemoteAddr rq)) as [x ->]. reflexivity.
  - apply remoteIP_spec.
Qed.

(** A request from [10.0.0.5:4711] in NoCloud mode looks up
    [10.0.0.5]. *)
Lemma C9_lookup_uses_address_before_first_colon_witness :
  SplitN "10.0.0.5:4711" ":" 2 !! 0%nat = Some "10.0.0.5" /\
  ("10.0.0.5:4711" = "10.0.0.5" \/
   exists port, "10.0.0.5:4711" = "10.0.0.5" +:+ ":" +:+ port).
Proof.
  pose proof (C9_lookup_uses_address_before_first_colon scenario.blockYaml
    scenario.registry scenario.keystore "example.org" scenario.template
    "nocloud" (noclserver.NewRouter scenario.blockYaml scenario.nocloud)
    (scenario.GET "/user-data" "10.0.0.5:4711") (findByIP "10.0.0.5")
    eq_refl) as H.
  cbn [scenario.GET RemoteAddr findByIP vmregistrypb.Value] in H.
  refine (let H' := H _ in conj (proj1 (proj2 H')) (proj2 (proj2 (proj2 H')))).
  vm_compute. left.
Defined.

(** ** The root listing (C10) and the redirect (C5) *)

(** C10. The handler of [/2009-04-04/meta-data/] calls neither backend
    and does not fail: whatever the server's backends, the method and
    the remote address, it returns the same 200 response, whose body is
    the fixed listing; so any two such requests get identical
    responses. *)
Theorem C10_root_listing_is_constant
  (e1 e2 : ec2server.Server) (m1 a1 m2 a2 : string) :
  let rq1 := {| Method := m1; URL_Path := "/2009-04-04/meta-data/";
                RemoteAddr := a1 |} in
  let rq2 := {| Method := m2; URL_Path := "/2009-04-04/meta-data/";
                RemoteAddr := a2 |} in
  ec2server.serve e1 rq1
  = reply 200 ("hostname" +:+ LF +:+ "instance-id" +:+ LF +:+ "public-keys")
      []
  /\ ec2server.serve e1 rq1 = ec2server.serve e2 rq2.
Proof.
  intros rq1 rq2.
  rewrite (ec2_route_root e1 rq1), (ec2_route_root e2 rq2) by reflexivity.
  split; reflexivity.
Qed.

(** C5. A request for [/2009-04-04/meta-data/public-keys] (no trailing
    slash) is answered with status 301 and the [Location] header
    [http://169.254.169.254/2009-04-04/meta-data/public-keys/], for every
    server, method and remote address, and no backend is called. *)
Theorem C5_public_keys_without_slash_redirects
  (e : ec2server.Server) (m a : string) :
  exists w : ResponseWriter,
    ec2server.serve e
      {| Method := m; URL_Path := "/2009-04-04/meta-data/public-keys";
         RemoteAddr := a |}
    = Returned tt {| writer := w; calls := [] |}
    /\ status w = Some 301
    /\ header w !! "Location"
       = Some ["http://169.254.169.254/2009-04-04/meta-data/public-keys/"].
Proof.
  rewrite ec2_route_redirect by reflexivity. unfold Redirect.
  cbn [Method newWorld writer newResponse header].
  rewrite lookup_empty.
  destruct (String.eqb m "GET"), (String.eqb m "HEAD");
    eexists; (split; [reflexivity | split; reflexivity]).
Qed.

(** For a GET request the redirect carries the short HTML note of
    [http.Redirect]. *)
Example redirect_of_GET :
  ec2server.serve scenario.ec2
    (scenario.GET "/2009-04-04/meta-data/public-keys" "10.0.0.5:4711")
  = Returned tt
      {| writer :=
           {| status := Some 301;
              header :=
                {[ "Location" :=
                     ["http://169.254.169.254/2009-04-04/meta-data/public-keys/"];
                   "Content-Type" := ["text/html; charset=utf-8"] ]};
              body := "<a href=" +:+ DQUOTE +:+
                "http://169.254.169.254/2009-04-04/meta-data/public-keys/"
                +:+ DQUOTE +:+ ">Moved Permanently</a>." +:+ LF +:+ LF |};
         calls := [] |}.
Proof. vm_compute. reflexivity. Qed.

(** ** The handlers on a resolved VM *)

Section Resolved.

Variable e : ec2server.Server.
Variable n : noclserver.Server.
Variable ip : string.
Variable vm : vmregistrypb.VM.
Variable pkeys : pubkeystorepb.GetKeysReply.

Let keys := pubkeystorepb.Keys pkeys.

Hypothesis ec2_resolves :
  rpc.Find (ec2server.vmregClient e) [] (findByIP ip) = Ok vm.
Hypothesis nocloud_resolves :
  rpc.Find (noclserver.vmregClient n) [] (findByIP ip) = Ok vm.

Lemma HandleHostname_resolved :
  ec2server.HandleHostname e ip newWorld
  = reply 200 (vmregistrypb.Name vm) [CallFind (findByIP ip)].
Proof. run. rewrite ec2_resolves. reflexivity. Qed.

Lemma HandleInstanceID_resolved :
  ec2server.HandleInstanceID e ip newWorld
  = reply 200 ("i-" +:+ vmregistrypb.Name vm) [CallFind (findByIP ip)].
Proof. run. rewrite ec2_resolves. reflexivity. Qed.

Hypothesis ec2_keys :
  rpc.GetKeys (ec2server.pubkeystoreClient e) [CallFind (findByIP ip)]
    (keysOf vm) = Ok pkeys.
Hypothesis nocloud_keys :
  rpc.GetKeys (noclserver.pubkeystoreClient n) [CallFind (findByIP ip)]
    (keysOf vm) = Ok pkeys.

Lemma HandlePublicKeys_resolved :
  ec2server.HandlePublicKeys e ip newWorld
  = reply 200
      (Join (imap (λ i k, Itoa (Z.of_nat i) +:+ "=" +:+ pubkeystorepb.Name k)
               keys) LF)
      (lookupThenKeys ip vm).
Proof.
  run. rewrite ec2_resolves. cbn [calls]. rewrite ec2_keys. reflexivity.
Qed.

(** The index guard of both key handlers: at or above the number of
    keys the answer is an empty 500. *)
Lemma HandlePublicKey_too_large (keyIdx : Z) :
  len keys <= keyIdx ->
  ec2server.HandlePublicKey e ip keyIdx newWorld
  = reply 500 EmptyString (lookupThenKeys ip vm).
Proof.
  intros H. run. rewrite ec2_resolves. cbn [calls]. rewrite ec2_keys.
  fold keys. destruct (Z.geb_spec keyIdx (len keys)); [reflexivity | lia].
Qed.

Lemma HandlePublicKeyData_too_large (keyIdx : Z) :
  len keys <= keyIdx ->
  ec2server.HandlePublicKeyData e ip keyIdx newWorld
  = reply 500 EmptyString (lookupThenKeys ip vm).
Proof.
  intros H. run. rewrite ec2_resolves. cbn [calls]. rewrite ec2_keys.
  fold keys. destruct (Z.geb_spec keyIdx (len keys)); [reflexivity | lia].
Qed.

(** Below the number of keys, negative indices included, the directory
    handler answers with its one entry. *)
Lemma HandlePublicKey_below (keyIdx : Z) :
  keyIdx < len keys ->
  ec2server.HandlePublicKey e ip keyIdx newWorld
  = reply 200 "openssh-key" (lookupThenKeys ip vm).
Proof.
  intros H. run. rewrite ec2_resolves. cbn [calls]. rewrite ec2_keys.
  fold keys. destruct (Z.geb_spec keyIdx (len keys)); [lia | reflexivity].
Qed.

Lemma HandlePublicKeyData_in_range (k : nat) (key : pubkeystorepb.Key) :
  keys !! k = Some key ->
  ec2server.HandlePublicKeyData e ip (Z.of_nat k) newWorld
  = reply 200 (opensshLine key) (lookupThenKeys ip vm).
Proof.
  intros Hk. run. rewrite ec2_resolves. cbn [calls]. rewrite ec2_keys.
  fold keys. apply lookup_lt_Some in Hk as Hlt.
  destruct (Z.geb_spec (Z.of_nat k) (len keys)); [unfold len in *; lia |].
  unfold index. destruct (Z.ltb_spec (Z.of_nat k) 0); [lia |].
  rewrite Nat2Z.id, Hk. reflexivity.
Qed.

(** A negative index passes the guard and the slice access panics
    before anything is written. *)
Lemma HandlePublicKeyData_negative (keyIdx : Z) :
  keyIdx < 0 ->
  ec2server.HandlePublicKeyData e ip keyIdx newWorld
  = Panicked {| writer := newResponse; calls := lookupThenKeys ip vm |}.
Proof.
  intros H. run. rewrite ec2_resolves. cbn [calls]. rewrite ec2_keys.
  fold keys.
  destruct (Z.geb_spec keyIdx (len keys)); [unfold len in *; lia |].
  unfold index. destruct (Z.ltb_spec keyIdx 0); [reflexivity | lia].
Qed.

Lemma formatted_keys :
  imap (λ (_ : nat) key,
          pubkeystorepb.Algo key +:+ " " +:+ pubkeystorepb.Pubkey key +:+
          " " +:+ pubkeystorepb.Comment key) keys
  = opensshLine <$> keys.
Proof. exact (imap_const opensshLine keys). Qed.

Lemma nocloud_HandleMetadata_resolved yaml_encode :
  noclserver.HandleMetadata yaml_encode n ip newWorld
  = match noclserver.Marshal yaml_encode (document vm pkeys) with
    | Ok text => reply 200 text (lookupThenKeys ip vm)
    | Err _ => reply 500 EmptyString (lookupThenKeys ip vm)
    end.
Proof.
  run. rewrite nocloud_resolves. cbn [calls]. rewrite nocloud_keys.
  fold keys. rewrite formatted_keys. unfold document. fold keys.
  destruct (noclserver.Marshal yaml_encode _); reflexivity.
Qed.

Lemma nocloud_HandleUserdata_resolved :
  noclserver.HandleUserdata n ip newWorld
  = reply 200
      (Execute (noclserver.userDataTemplate n)
         {| Hostname := vmregistrypb.Name vm +:+ "." +:+ noclserver.dnsName n;
            nethttp.PublicKeys := opensshLine <$> keys |}).1
      (lookupThenKeys ip vm).
Proof.
  run. rewrite nocloud_resolves. cbn [calls]. rewrite nocloud_keys.
  fold keys. rewrite formatted_keys. destruct (Execute _ _). reflexivity.
Qed.

End Resolved.

(** The scenario of the specification: [10.0.0.5] is [vm-42]. *)
Example hostname_of_scenario :
  ec2server.serve scenario.ec2
    (scenario.GET "/2009-04-04/meta-data/hostname" "10.0.0.5:4711")
  = reply 200 "vm-42" [CallFind (findByIP "10.0.0.5")].
Proof. reflexivity. Qed.

(** ** The instance id (C2) *)

(** C2. For the same VM record, the body of the EC2 [instance-id]
    endpoint and the [InstanceID] field of the document the NoCloud
    [/meta-data] endpoint serialises are both ["i-"] followed by the VM
    name. *)
Theorem C2_instance_id_is_i_dash_name
  (e : ec2server.Server) (n : noclserver.Server) (rq1 rq2 : Request)
  (vm : vmregistrypb.VM) (pkeys : pubkeystorepb.GetKeysReply) :
  URL_Path rq1 = "/2009-04-04/meta-data/instance-id" ->
  URL_Path rq2 = "/meta-data" ->
  rpc.Find (ec2server.vmregClient e) []
    (findByIP (ec2server.remoteIP rq1)) = Ok vm ->
  rpc.Find (noclserver.vmregClient n) []
    (findByIP (noclserver.remoteIP rq2)) = Ok vm ->
  rpc.GetKeys (noclserver.pubkeystoreClient n)
    [CallFind (findByIP (noclserver.remoteIP rq2))] (keysOf vm) = Ok pkeys ->
  ec2server.serve e rq1
  = reply 200 ("i-" +:+ vmregistrypb.Name vm)
      [CallFind (findByIP (ec2server.remoteIP rq1))]
  /\ exists md : noclserver.Metadata,
       noclserver.InstanceID md = "i-" +:+ vmregistrypb.Name vm /\
       forall yaml_encode,
         noclserver.serve yaml_encode n rq2
         = match noclserver.Marshal yaml_encode md with
           | Ok text =>
               reply 200 text (lookupThenKeys (noclserver.remoteIP rq2) vm)
           | Err _ =>
               reply 500 EmptyString
                 (lookupThenKeys (noclserver.remoteIP rq2) vm)
           end.
Proof.
  intros Hp1 Hp2 Hf1 Hf2 Hk2. split.
  - rewrite ec2_route_instance_id by assumption.
    apply HandleInstanceID_resolved; assumption.
  - exists (document vm pkeys). split; [reflexivity |]. intros yaml_encode.
    rewrite nocloud_route_metadata by assumption.
    apply nocloud_HandleMetadata_resolved; assumption.
Qed.

(** The scenario of the specification: [vm-42] has instance id
    [i-vm-42]. *)
Lemma C2_instance_id_is_i_dash_name_witness :
  ec2server.serve scenario.ec2
    (scenario.GET "/2009-04-04/meta-data/instance-id" "10.0.0.5:4711")
  = reply 200 "i-vm-42" [CallFind (findByIP "10.0.0.5")].
Proof.
  exact (proj1 (C2_instance_id_is_i_dash_name scenario.ec2 scenario.nocloud
    (scenario.GET "/2009-04-04/meta-data/instance-id" "10.0.0.5:4711")
    (scenario.GET "/meta-data" "10.0.0.5:99")
    scenario.vm42 {| pubkeystorepb.Keys := [scenario.k0] |}
    eq_refl eq_refl eq_refl eq_refl eq_refl)).
Defined.

(** ** The key listing (C3) *)

Lemma Join_cons (x y : string) (l : list string) (sep : string) :
  Join (x :: y :: l) sep = x +:+ sep +:+ Join (y :: l) sep.
Proof. reflexivity. Qed.

Lemma Join_singleton (x sep : string) : Join [x] sep = x.
Proof. reflexivity. Qed.

(** C3. When the caller resolves to a VM for which the key store
    returns [n] keys, the body of [/2009-04-04/meta-data/public-keys/] is
    the join, with one newline between entries and nothing after the
    last, of [n] lines, and line [i] is the decimal [i], an equals sign
    and the name (label) of the [i]-th key in the store's order. *)
Theorem C3_public_keys_listing
  (e : ec2server.Server) (rq : Request) (vm : vmregistrypb.VM)
  (pkeys : pubkeystorepb.GetKeysReply) :
  URL_Path rq = "/2009-04-04/meta-data/public-keys/" ->
  rpc.Find (ec2server.vmregClient e) []
    (findByIP (ec2server.remoteIP rq)) = Ok vm ->
  rpc.GetKeys (ec2server.pubkeystoreClient e)
    [CallFind (findByIP (ec2server.remoteIP rq))] (keysOf vm) = Ok pkeys ->
  exists lines : list string,
    ec2server.serve e rq
    = reply 200 (Join lines LF) (lookupThenKeys (ec2server.remoteIP rq) vm)
    /\ length lines = length (pubkeystorepb.Keys pkeys)
    /\ forall (i : nat) (k : pubkeystorepb.Key),
         pubkeystorepb.Keys pkeys !! i = Some k ->
         lines !! i = Some (Itoa (Z.of_nat i) +:+ "=" +:+ pubkeystorepb.Name k).
Proof.
  intros Hp Hf Hk.
  eexists. split; [| split].
  - rewrite ec2_route_public_keys by assumption.
    apply HandlePublicKeys_resolved; eassumption.
  - apply length_imap.
  - intros i k Hi. rewrite list_lookup_imap, Hi. reflexivity.
Qed.

(** The scenario of the specification: one key labelled [k0] is listed
    as [0=k0]. *)
Lemma C3_public_keys_listing_witness :
  exists lines : list string,
    ec2server.serve scenario.ec2
      (scenario.GET "/2009-04-04/meta-data/public-keys/" "10.0.0.5:4711")
    = reply 200 (Join lines LF) (lookupThenKeys "10.0.0.5" scenario.vm42)
    /\ length lines = 1%nat
    /\ forall (i : nat) (k : pubkeystorepb.Key),
         [scenario.k0] !! i = Some k ->
         lines !! i = Some (Itoa (Z.of_nat i) +:+ "=" +:+ pubkeystorepb.Name k).
Proof.
  exact (C3_public_keys_listing scenario.ec2
    (scenario.GET "/2009-04-04/meta-data/public-keys/" "10.0.0.5:4711")
    scenario.vm42 {| pubkeystorepb.Keys := [scenario.k0] |}
    eq_refl eq_refl eq_refl).
Defined.

Example listing_of_scenario :
  ec2server.serve scenario.ec2
    (scenario.GET "/2009-04-04/meta-data/public-keys/" "10.0.0.5:4711")
  = reply 200 "0=k0" (lookupThenKeys "10.0.0.5" scenario.vm42).
Proof. reflexivity. Qed.

(** ** One key in both renderings (C4) *)

(** C4. Let the key store return the same keys in both modes and let
    [key] be the key at index [k].  For every path segment that [Atoi]
    reads as [k], the body of
    [/2009-04-04/meta-data/public-keys/<segment>/openssh-key] is
    [algo material comment], the three fields joined by single spaces,
    and entry [k] of the [PublicKeys] list of the document the NoCloud
    [/meta-data] endpoint serialises is that same string. *)
Theorem C4_key_line_same_in_both_modes
  (e : ec2server.Server) (n : noclserver.Server) (rq1 rq2 : Request)
  (vm : vmregistrypb.VM) (pkeys : pubkeystorepb.GetKeysReply)
  (idx : string) (k : nat) (key : pubkeystorepb.Key) :
  isSegment idx ->
  Atoi idx = Ok (Z.of_nat k) ->
  URL_Path rq1
  = "/2009-04-04/meta-data/public-keys/" +:+ idx +:+ "/openssh-key" ->
  URL_Path rq2 = "/meta-data" ->
  rpc.Find (ec2server.vmregClient e) []
    (findByIP (ec2server.remoteIP rq1)) = Ok vm ->
  rpc.GetKeys (ec2server.pubkeystoreClient e)
    [CallFind (findByIP (ec2server.remoteIP rq1))] (keysOf vm) = Ok pkeys ->
  rpc.Find (noclserver.vmregClient n) []
    (findByIP (noclserver.remoteIP rq2)) = Ok vm ->
  rpc.GetKeys (noclserver.pubkeystoreClient n)
    [CallFind (findByIP (noclserver.remoteIP rq2))] (keysOf vm) = Ok pkeys ->
  pubkeystorepb.Keys pkeys !! k = Some key ->
  let line := pubkeystorepb.Algo key +:+ " " +:+ pubkeystorepb.Pubkey key
              +:+ " " +:+ pubkeystorepb.Comment key in
  ec2server.serve e rq1
  = reply 200 line (lookupThenKeys (ec2server.remoteIP rq1) vm)
  /\ exists md : noclserver.Metadata,
       noclserver.PublicKeys md !! k = Some line /\
       forall yaml_encode,
         noclserver.serve yaml_encode n rq2
         = match noclserver.Marshal yaml_encode md with
           | Ok text =>
               reply 200 text (lookupThenKeys (noclserver.remoteIP rq2) vm)
           | Err _ =>
               reply 500 EmptyString
                 (lookupThenKeys (noclserver.remoteIP rq2) vm)
           end.
Proof.
  intros Hseg Hidx Hp1 Hp2 Hf1 Hk1 Hf2 Hk2 Hkey line. split.
  - rewrite (ec2_route_public_key_data e rq1 idx) by assumption.
    rewrite Hidx.
    apply (HandlePublicKeyData_in_range e _ vm pkeys Hf1 Hk1 k key Hkey).
  - exists (document vm pkeys). split.
    + cbn [document noclserver.PublicKeys].
      rewrite list_lookup_fmap, Hkey. reflexivity.
    + intros yaml_encode.
      rewrite nocloud_route_metadata by assumption.
      apply nocloud_HandleMetadata_resolved; assumption.
Qed.

Lemma isSegment_0 : isSegment "0".
Proof.
  split; [discriminate |]. cbn. intros [H | []]. discriminate H.
Defined.

(** The scenario of the specification: key 0 of [vm-42] reads
    [ssh-rsa AAAA... host1] at [public-keys/0/openssh-key]. *)
Lemma C4_key_line_same_in_both_modes_witness :
  ec2server.serve scenario.ec2
    (scenario.GET "/2009-04-04/meta-data/public-keys/0/openssh-key"
       "10.0.0.5:4711")
  = reply 200 "ssh-rsa AAAA... host1"
      (lookupThenKeys "10.0.0.5" scenario.vm42).
Proof.
  exact (proj1 (C4_key_line_same_in_both_modes scenario.ec2 scenario.nocloud
    (scenario.GET "/2009-04-04/meta-data/public-keys/0/openssh-key"
       "10.0.0.5:4711")
    (scenario.GET "/meta-data" "10.0.0.5:99")
    scenario.vm42 {| pubkeystorepb.Keys := [scenario.k0] |}
    "0" 0%nat scenario.k0
    isSegment_0 eq_refl eq_refl eq_refl eq_refl eq_refl eq_refl eq_refl
    eq_refl)).
Defined.

(** ** The NoCloud endpoints (C7, C8) *)

(** C7. When the caller resolves to a VM and its keys are fetched, the
    NoCloud [/meta-data] endpoint hands the YAML encoder a map with the
    three keys [local-hostname] (the VM name), [instance-id] (["i-"] and
    the name) and [public-keys] (one string [algo material comment] per
    key, in the store's order); the encoder's text is the body of a 200
    response, and an encoder error gives an empty 500. *)
Theorem C7_nocloud_metadata_document
  (yaml_encode : noclserver.Yaml -> result string)
  (n : noclserver.Server) (rq : Request)
  (vm : vmregistrypb.VM) (pkeys : pubkeystorepb.GetKeysReply) :
  URL_Path rq = "/meta-data" ->
  rpc.Find (noclserver.vmregClient n) []
    (findByIP (noclserver.remoteIP rq)) = Ok vm ->
  rpc.GetKeys (noclserver.pubkeystoreClient n)
    [CallFind (findByIP (noclserver.remoteIP rq))] (keysOf vm) = Ok pkeys ->
  noclserver.serve yaml_encode n rq
  = match
      yaml_encode
        (noclserver.YMap
           [("local-hostname", noclserver.YString (vmregistrypb.Name vm));
            ("instance-id",
             noclserver.YString ("i-" +:+ vmregistrypb.Name vm));
            ("public-keys",
             noclserver.YSeq
               ((λ key, noclserver.YString
                          (pubkeystorepb.Algo key +:+ " " +:+
                           pubkeystorepb.Pubkey key +:+ " " +:+
                           pubkeystorepb.Comment key))
                  <$> pubkeystorepb.Keys pkeys))])
    with
    | Ok text => reply 200 text (lookupThenKeys (noclserver.remoteIP rq) vm)
    | Err _ =>
        reply 500 EmptyString (lookupThenKeys (noclserver.remoteIP rq) vm)
    end.
Proof.
  intros Hp Hf Hk.
  rewrite nocloud_route_metadata by assumption.
  rewrite (nocloud_HandleMetadata_resolved n _ vm pkeys Hf Hk).
  unfold noclserver.Marshal, noclserver.Metadata_yaml, document.
  cbn [noclserver.LocalHostname noclserver.InstanceID noclserver.PublicKeys].
  rewrite <- list_fmap_compose. reflexivity.
Qed.

(** The scenario of the specification, written out by the block
    printer. *)
Lemma C7_nocloud_metadata_document_witness :
  noclserver.serve scenario.blockYaml scenario.nocloud
    (scenario.GET "/meta-data" "10.0.0.5:99")
  = reply 200
      ("local-hostname: vm-42" +:+ LF +:+ "instance-id: i-vm-42" +:+ LF +:+
       "public-keys:" +:+ LF +:+ "- ssh-rsa AAAA... host1" +:+ LF)
      (lookupThenKeys "10.0.0.5" scenario.vm42).
Proof.
  exact (C7_nocloud_metadata_document scenario.blockYaml scenario.nocloud
    (scenario.GET "/meta-data" "10.0.0.5:99")
    scenario.vm42 {| pubkeystorepb.Keys := [scenario.k0] |}
    eq_refl eq_refl eq_refl).
Defined.

(** An encoder that always fails: the endpoint answers with an empty
    500 after both calls. *)
Example metadata_encoder_failure :
  noclserver.serve (λ _, Err (ErrEncode "no")) scenario.nocloud
    (scenario.GET "/meta-data" "10.0.0.5:99")
  = reply 500 EmptyString (lookupThenKeys "10.0.0.5" scenario.vm42).
Proof. reflexivity. Qed.

(** C8. When the caller resolves to a VM and its keys are fetched, the
    body of the NoCloud [/user-data] endpoint is the text the compiled
    template writes when executed on the host name [name.dnsName] and
    the list of [algo material comment] strings, sent as it is with
    status 200. *)
Theorem C8_nocloud_userdata_rendering
  (n : noclserver.Server) (rq : Request)
  (vm : vmregistrypb.VM) (pkeys : pubkeystorepb.GetKeysReply) :
  URL_Path rq = "/user-data" ->
  rpc.Find (noclserver.vmregClient n) []
    (findByIP (noclserver.remoteIP rq)) = Ok vm ->
  rpc.GetKeys (noclserver.pubkeystoreClient n)
    [CallFind (findByIP (noclserver.remoteIP rq))] (keysOf vm) = Ok pkeys ->
  forall yaml_encode,
    noclserver.serve yaml_encode n rq
    = reply 200
        (Execute (noclserver.userDataTemplate n)
           {| Hostname :=
                vmregistrypb.Name vm +:+ "." +:+ noclserver.dnsName n;
              nethttp.PublicKeys :=
                (λ key, pubkeystorepb.Algo key +:+ " " +:+
                        pubkeystorepb.Pubkey key +:+ " " +:+
                        pubkeystorepb.Comment key)
                  <$> pubkeystorepb.Keys pkeys |}).1
        (lookupThenKeys (noclserver.remoteIP rq) vm).
Proof.
  intros Hp Hf Hk yaml_encode.
  rewrite nocloud_route_userdata by assumption.
  apply nocloud_HandleUserdata_resolved; assumption.
Qed.

(** The scenario of the specification with the DNS suffix
    [example.org]. *)
Lemma C8_nocloud_userdata_rendering_witness :
  noclserver.serve scenario.blockYaml scenario.nocloud
    (scenario.GET "/user-data" "10.0.0.5:99")
  = reply 200
      ("host vm-42.example.org" +:+ LF +:+ "ssh-rsa AAAA... host1")
      (lookupThenKeys "10.0.0.5" scenario.vm42).
Proof.
  exact (C8_nocloud_userdata_rendering scenario.nocloud
    (scenario.GET "/user-data" "10.0.0.5:99")
    scenario.vm42 {| pubkeystorepb.Keys := [scenario.k0] |}
    eq_refl eq_refl eq_refl scenario.blockYaml).
Defined.

(** A template whose execution stops with an error after writing part
    of its output: the handler does not look at the error and sends
    what was written, with status 200. *)
Example userdata_template_error_ignored :
  noclserver.serve scenario.blockYaml
    {| noclserver.vmregClient := scenario.registry;
       noclserver.pubkeystoreClient := scenario.keystore;
       noclserver.dnsName := "example.org";
       noclserver.userDataTemplate :=
         {| Execute := λ d, ("host " +:+ Hostname d,
                             Some (ErrBackend "template")) |} |}
    (scenario.GET "/user-data" "10.0.0.5:99")
  = reply 200 "host vm-42.example.org"
      (lookupThenKeys "10.0.0.5" scenario.vm42).
Proof. reflexivity. Qed.

(** ** The key index (C1) *)

Section KeyIndex.

Variable e : ec2server.Server.
Variable rq : Request.
Variable idx : string.

Hypothesis idx_segment : isSegment idx.

Let dir : string := "/2009-04-04/meta-data/public-keys/" +:+ idx +:+ "/".
Let data : string :=
  "/2009-04-04/meta-data/public-keys/" +:+ idx +:+ "/openssh-key".

(** An index that [Atoi] rejects is answered with an empty 500 by the
    router itself, before any backend is called. *)
Lemma index_unparsable (err : error) :
  Atoi idx = Err err ->
  URL_Path rq = dir \/ URL_Path rq = data ->
  ec2server.serve e rq = reply 500 EmptyString [].
Proof.
  intros Hidx [Hp | Hp].
  - rewrite (ec2_route_public_key e rq idx) by assumption.
    rewrite Hidx. reflexivity.
  - rewrite (ec2_route_public_key_data e rq idx) by assumption.
    rewrite Hidx. reflexivity.
Qed.

Variable vm : vmregistrypb.VM.
Variable pkeys : pubkeystorepb.GetKeysReply.
Variable keyIdx : Z.

Hypothesis idx_parses : Atoi idx = Ok keyIdx.
Hypothesis resolves :
  rpc.Find (ec2server.vmregClient e) []
    (findByIP (ec2server.remoteIP rq)) = Ok vm.
Hypothesis fetches :
  rpc.GetKeys (ec2server.pubkeystoreClient e)
    [CallFind (findByIP (ec2server.remoteIP rq))] (keysOf vm) = Ok pkeys.

(** An index at or above the number of keys is answered with an empty
    500 by both endpoints. *)
Lemma index_too_large :
  len (pubkeystorepb.Keys pkeys) <= keyIdx ->
  URL_Path rq = dir \/ URL_Path rq = data ->
  ec2server.serve e rq
  = reply 500 EmptyString (lookupThenKeys (ec2server.remoteIP rq) vm).
Proof.
  intros Hlen [Hp | Hp].
  - rewrite (ec2_route_public_key e rq idx) by assumption.
    rewrite idx_parses.
    apply (HandlePublicKey_too_large e _ vm pkeys resolves fetches _ Hlen).
  - rewrite (ec2_route_public_key_data e rq idx) by assumption.
    rewrite idx_parses.
    apply (HandlePublicKeyData_too_large e _ vm pkeys resolves fetches _ Hlen).
Qed.

(** An index in range: the directory endpoint lists its one child. *)
Lemma index_in_range_dir :
  0 <= keyIdx < len (pubkeystorepb.Keys pkeys) ->
  URL_Path rq = dir ->
  ec2server.serve e rq
  = reply 200 "openssh-key" (lookupThenKeys (ec2server.remoteIP rq) vm).
Proof.
  intros Hlen Hp.
  rewrite (ec2_route_public_key e rq idx) by assumption.
  rewrite idx_parses.
  apply (HandlePublicKey_below e _ vm pkeys resolves fetches). lia.
Qed.

(** A negative index is not caught by the guard: the directory endpoint
    answers as if the key existed, and the data endpoint panics on the
    slice access. *)
Lemma index_negative_dir :
  keyIdx < 0 ->
  URL_Path rq = dir ->
  ec2server.serve e rq
  = reply 200 "openssh-key" (lookupThenKeys (ec2server.remoteIP rq) vm).
Proof.
  intros Hneg Hp.
  rewrite (ec2_route_public_key e rq idx) by assumption.
  rewrite idx_parses.
  apply (HandlePublicKey_below e _ vm pkeys resolves fetches).
  unfold len. lia.
Qed.

Lemma index_negative_data :
  keyIdx < 0 ->
  URL_Path rq = data ->
  ec2server.serve e rq
  = Panicked {| writer := newResponse;
                calls := lookupThenKeys (ec2server.remoteIP rq) vm |}.
Proof.
  intros Hneg Hp.
  rewrite (ec2_route_public_key_data e rq idx) by assumption.
  rewrite idx_parses.
  apply (HandlePublicKeyData_negative e _ vm pkeys resolves fetches _ Hneg).
Qed.

End KeyIndex.

(** C1, on the code.  The index [-1] parses ([Atoi] accepts a sign) and
    is below the number of keys, so it passes the only check,
    [keyIdx >= len(pkeys.Keys)]: for [vm-42] with its one key,
    [public-keys/-1/] is answered with status 200 and the body
    [openssh-key], and [public-keys/-1/openssh-key] panics when it
    indexes the key slice, without sending status 500. *)
Theorem C1_negative_index_passes_the_check :
  Atoi "-1" = Ok (-1)
  /\ ec2server.serve scenario.ec2
       (scenario.GET "/2009-04-04/meta-data/public-keys/-1/" "10.0.0.5:4711")
     = reply 200 "openssh-key" (lookupThenKeys "10.0.0.5" scenario.vm42)
  /\ ec2server.serve scenario.ec2
       (scenario.GET "/2009-04-04/meta-data/public-keys/-1/openssh-key"
          "10.0.0.5:4711")
     = Panicked {| writer := newResponse;
                   calls := lookupThenKeys "10.0.0.5" scenario.vm42 |}.
Proof. repeat split. Qed.

(** The rest of the claim holds in the scenario: a non-numeric index
    and the index 1 (one key only) are answered with an empty 500 by
    both endpoints. *)
Example index_rejected_in_scenario :
  let get path := ec2server.serve scenario.ec2
                    (scenario.GET path "10.0.0.5:4711") in
  get "/2009-04-04/meta-data/public-keys/x/" = reply 500 EmptyString []
  /\ get "/2009-04-04/meta-data/public-keys/x/openssh-key"
     = reply 500 EmptyString []
  /\ get "/2009-04-04/meta-data/public-keys/1/"
     = reply 500 EmptyString (lookupThenKeys "10.0.0.5" scenario.vm42)
  /\ get "/2009-04-04/meta-data/public-keys/1/openssh-key"
     = reply 500 EmptyString (lookupThenKeys "10.0.0.5" scenario.vm42).
Proof. repeat split. Qed.

(** ** The indices of the listing are valid path segments *)

Section Decimal.

Lemma digits_of_uint_acc (d : Decimal.uint) (acc : positive) :
  digits (NilEmpty.string_of_uint d) (Z.pos acc)
  = Some (Z.pos (Pos.of_uint_acc d acc)).
Proof.
  revert acc; induction d; intros acc; cbn [NilEmpty.string_of_uint digits];
    [reflexivity | ..];
    (change (digit _) with (Some 0) || change (digit _) with (Some 1)
     || change (digit _) with (Some 2) || change (digit _) with (Some 3)
     || change (digit _) with (Some 4) || change (digit _) with (Some 5)
     || change (digit _) with (Some 6) || change (digit _) with (Some 7)
     || change (digit _) with (Some 8) || change (digit _) with (Some 9));
    cbn [Pos.of_uint_acc]; rewrite <- IHd; f_equal; lia.
Qed.

Lemma digits_of_uint (d : Decimal.uint) :
  digits (NilEmpty.string_of_uint d) 0 = Some (Z.of_N (Pos.of_uint d)).
Proof.
  induction d; cbn [NilEmpty.string_of_uint digits Pos.of_uint];
    [reflexivity | exact IHd | ..];
    (change (digit _) with (Some 1)
     || change (digit _) with (Some 2) || change (digit _) with (Some 3)
     || change (digit _) with (Some 4) || change (digit _) with (Some 5)
     || change (digit _) with (Some 6) || change (digit _) with (Some 7)
     || change (digit _) with (Some 8) || change (digit _) with (Some 9));
    cbn [Z.mul Z.add]; apply digits_of_uint_acc.
Qed.

Lemma no_slash_of_uint (d : Decimal.uint) :
  ~ In "/"%char (list_ascii_of_string (NilEmpty.string_of_uint d)).
Proof.
  induction d; cbn; intros H; [exact H | ..];
    (destruct H as [H | H]; [discriminate H | exact (IHd H)]).
Qed.

(** [Atoi] reads back what [Itoa] prints, within the range of [int]. *)
Lemma Atoi_Itoa (k : nat) :
  Z.of_nat k <= maxInt -> Atoi (Itoa (Z.of_nat k)) = Ok (Z.of_nat k).
Proof.
  intros Hmax. destruct (Z.of_nat k) as [| p | p] eqn:Ek; [reflexivity | | lia].
  unfold Itoa. cbn [Z.to_int NilZero.string_of_int].
  pose proof (DecimalPos.Unsigned.to_uint_nonnil p) as Hnil.
  pose proof (DecimalPos.Unsigned.of_to p) as Hof.
  pose proof (digits_of_uint (Pos.to_uint p)) as Hd. rewrite Hof in Hd.
  assert (minInt <= Z.pos p) as Hmin by (unfold minInt, intSize; lia).
  unfold NilZero.string_of_uint.
  destruct (Pos.to_uint p) as [| d | d | d | d | d | d | d | d | d | d];
    [congruence | ..];
    cbn [NilEmpty.string_of_uint] in *; unfold Atoi;
    cbn [Ascii.eqb Bool.eqb orb]; cbv beta iota zeta; rewrite Hd;
    cbn [N.to_nat Z.of_N];
    destruct (Z.leb_spec minInt (Z.pos p)); try lia;
    destruct (Z.leb_spec (Z.pos p) maxInt); try lia; reflexivity.
Qed.

Lemma isSegment_Itoa (k : nat) : isSegment (Itoa (Z.of_nat k)).
Proof.
  destruct (Z.of_nat k) as [| p | p] eqn:Ek; [exact isSegment_0 | | lia].
  unfold Itoa. cbn [Z.to_int NilZero.string_of_int].
  pose proof (DecimalPos.Unsigned.to_uint_nonnil p) as Hnil.
  pose proof (no_slash_of_uint (Pos.to_uint p)) as Hs.
  unfold NilZero.string_of_uint.
  destruct (Pos.to_uint p); [congruence | ..]; (split; [discriminate | exact Hs]).
Qed.

End Decimal.

(** Every entry [i=label] of the listing names a key that can be
    fetched: the segment [i] leads to the one-line form of key [i]. *)
Corollary listed_index_leads_to_its_key
  (e : ec2server.Server) (rq : Request) (vm : vmregistrypb.VM)
  (pkeys : pubkeystorepb.GetKeysReply) (i : nat) (key : pubkeystorepb.Key) :
  Z.of_nat i <= maxInt ->
  URL_Path rq
  = "/2009-04-04/meta-data/public-keys/" +:+ Itoa (Z.of_nat i)
    +:+ "/openssh-key" ->
  rpc.Find (ec2server.vmregClient e) []
    (findByIP (ec2server.remoteIP rq)) = Ok vm ->
  rpc.GetKeys (ec2server.pubkeystoreClient e)
    [CallFind (findByIP (ec2server.remoteIP rq))] (keysOf vm) = Ok pkeys ->
  pubkeystorepb.Keys pkeys !! i = Some key ->
  ec2server.serve e rq
  = reply 200 (opensshLine key) (lookupThenKeys (ec2server.remoteIP rq) vm).
Proof.
  intros Hmax Hp Hf Hk Hkey.
  rewrite (ec2_route_public_key_data e rq (Itoa (Z.of_nat i)))
    by (apply isSegment_Itoa || assumption).
  rewrite Atoi_Itoa by assumption.
  apply (HandlePublicKeyData_in_range e _ vm pkeys Hf Hk i key Hkey).
Qed.

(** * Further properties of the handlers and routers *)

(** ** Calls and status of every request *)

Ltac shape_case :=
  cbn [final calls]; unfold oneLookupOneFetch, lookupThenKeys;
  first [ left; reflexivity
        | right; left; reflexivity
        | right; right; eexists; split; [eassumption | reflexivity] ].

Ltac ending_case :=
  cbn; first [ left; reflexivity
             | right; right; right; repeat split ].

Section EveryRequest.

Variable yaml_encode : noclserver.Yaml -> result string.
Variable e : ec2server.Server.
Variable n : noclserver.Server.
Variable ip : string.

Lemma ec2_handlers_shape (keyIdx : Z) :
  let P o := oneLookupOneFetch (ec2server.vmregClient e) ip (calls (final o)) in
  P (ec2server.HandleHostname e ip newWorld) /\
  P (ec2server.HandleInstanceID e ip newWorld) /\
  P (ec2server.HandlePublicKeys e ip newWorld) /\
  P (ec2server.HandlePublicKey e ip keyIdx newWorld) /\
  P (ec2server.HandlePublicKeyData e ip keyIdx newWorld).
Proof.
  cbv zeta. run.
  destruct (rpc.Find _ _ _) eqn:EF; cbn [calls];
    [destruct (rpc.GetKeys _ _ _) eqn:EG |];
    try destruct (keyIdx >=? _); try destruct (index _ _);
    repeat split; shape_case.
Qed.

Lemma nocloud_handlers_shape :
  let P o := oneLookupOneFetch (noclserver.vmregClient n) ip (calls (final o)) in
  P (noclserver.HandleMetadata yaml_encode n ip newWorld) /\
  P (noclserver.HandleUserdata n ip newWorld).
Proof.
  cbv zeta. run.
  destruct (rpc.Find _ _ _) eqn:EF; cbn [calls];
    [destruct (rpc.GetKeys _ _ _) eqn:EG |];
    try destruct (noclserver.Marshal _ _); try destruct (Execute _ _);
    repeat split; shape_case.
Qed.

Lemma ec2_handlers_ending (keyIdx : Z) :
  allOrNothing (ec2server.HandleMetadata e newWorld) /\
  allOrNothing (ec2server.HandleHostname e ip newWorld) /\
  allOrNothing (ec2server.HandleInstanceID e ip newWorld) /\
  allOrNothing (ec2server.HandlePublicKeys e ip newWorld) /\
  allOrNothing (ec2server.HandlePublicKey e ip keyIdx newWorld) /\
  allOrNothing (ec2server.HandlePublicKeyData e ip keyIdx newWorld).
Proof.
  run.
  destruct (rpc.Find _ _ _) eqn:EF; cbn [calls];
    [destruct (rpc.GetKeys _ _ _) eqn:EG |];
    try destruct (keyIdx >=? _); try destruct (index _ _);
    repeat split; ending_case.
Qed.

Lemma nocloud_handlers_ending :
  allOrNothing (noclserver.HandleMetadata yaml_encode n ip newWorld) /\
  allOrNothing (noclserver.HandleUserdata n ip newWorld).
Proof.
  run.
  destruct (rpc.Find _ _ _) eqn:EF; cbn [calls];
    [destruct (rpc.GetKeys _ _ _) eqn:EG |];
    try destruct (noclserver.Marshal _ _); try destruct (Execute _ _);
    repeat split; ending_case.
Qed.

Lemma Redirect_ending (rq : Request) (url : string) :
  allOrNothing (Redirect rq url 301 newWorld).
Proof.
  unfold Redirect. cbn [newWorld writer newResponse header].
  rewrite lookup_empty.
  destruct (String.eqb (Method rq) "GET"), (String.eqb (Method rq) "HEAD");
    right; left; reflexivity.
Qed.

Lemma NotFound_ending : allOrNothing (NotFound newWorld).
Proof. right; right; left; reflexivity. Qed.

Lemma WriteHeader_500_ending : allOrNothing (WriteHeader 500 newWorld).
Proof. right; right; right; repeat split. Qed.

End EveryRequest.

Section EveryRoute.

Variable yaml_encode : noclserver.Yaml -> result string.
Variable e : ec2server.Server.
Variable n : noclserver.Server.
Variable rq : Request.

Lemma ec2_serve_shape :
  oneLookupOneFetch (ec2server.vmregClient e) (ec2server.remoteIP rq)
    (calls (final (ec2server.serve e rq))).
Proof.
  unfold ec2server.serve.
  apply (ServeHTTP_cases
           (λ o, oneLookupOneFetch (ec2server.vmregClient e)
                   (ec2server.remoteIP rq) (calls (final o))));
    [| left; reflexivity].
  intros rt vars Hrt. apply list_elem_of_In in Hrt. simpl in Hrt.
  destruct Hrt as [<- | [<- | [<- | [<- | [<- | [<- | [<- | []]]]]]]];
    cbn [mux.handlerFunc]; try destruct (Atoi _) as [keyIdx |];
    try (left; first [reflexivity | apply Redirect_silent]);
    try apply (ec2_handlers_shape e (ec2server.remoteIP rq) 0);
    apply (ec2_handlers_shape e (ec2server.remoteIP rq) keyIdx).
Qed.

Lemma nocloud_serve_shape :
  oneLookupOneFetch (noclserver.vmregClient n) (noclserver.remoteIP rq)
    (calls (final (noclserver.serve yaml_encode n rq))).
Proof.
  unfold noclserver.serve.
  apply (ServeHTTP_cases
           (λ o, oneLookupOneFetch (noclserver.vmregClient n)
                   (noclserver.remoteIP rq) (calls (final o))));
    [| left; reflexivity].
  intros rt vars Hrt. apply list_elem_of_In in Hrt. simpl in Hrt.
  destruct Hrt as [<- | [<- | []]]; cbn [mux.handlerFunc];
    apply (nocloud_handlers_shape yaml_encode n (noclserver.remoteIP rq)).
Qed.

Lemma ec2_serve_ending : allOrNothing (ec2server.serve e rq).
Proof.
  unfold ec2server.serve.
  apply (ServeHTTP_cases allOrNothing); [| apply NotFound_ending].
  intros rt vars Hrt. apply list_elem_of_In in Hrt. simpl in Hrt.
  destruct Hrt as [<- | [<- | [<- | [<- | [<- | [<- | [<- | []]]]]]]];
    cbn [mux.handlerFunc]; try destruct (Atoi _) as [keyIdx |];
    try apply Redirect_ending; try apply WriteHeader_500_ending;
    try apply (ec2_handlers_ending e (ec2server.remoteIP rq) 0);
    apply (ec2_handlers_ending e (ec2server.remoteIP rq) keyIdx).
Qed.

Lemma nocloud_serve_ending :
  allOrNothing (noclserver.serve yaml_encode n rq).
Proof.
  unfold noclserver.serve.
  apply (ServeHTTP_cases allOrNothing); [| apply NotFound_ending].
  intros rt vars Hrt. apply list_elem_of_In in Hrt. simpl in Hrt.
  destruct Hrt as [<- | [<- | []]]; cbn [mux.handlerFunc];
    apply (nocloud_handlers_ending yaml_encode n (noclserver.remoteIP rq)).
Qed.

End EveryRoute.

(** X1. In both serving modes, a request makes at most one registry
    lookup and at most one key fetch: its calls are none, or the lookup
    of the caller address alone, or that lookup followed by one key
    fetch for the name of the VM the registry answered with. *)
Theorem X1_at_most_one_lookup_and_one_fetch
  yaml_encode vmreg pub dns tpl (apiMode : string) (r : mux.Router)
  (rq : Request) :
  main.router yaml_encode vmreg pub dns tpl apiMode = Some r ->
  oneLookupOneFetch vmreg (ec2server.remoteIP rq)
    (calls (final (mux.ServeHTTP r rq newWorld))).
Proof.
  intros Hr.
  apply router_modes in Hr as [(e & -> & <- & _) | (n & -> & <- & _)].
  - apply ec2_serve_shape.
  - apply (nocloud_serve_shape yaml_encode).
Qed.

Lemma X1_at_most_one_lookup_and_one_fetch_witness :
  oneLookupOneFetch scenario.registry "10.0.0.5"
    (calls (final (mux.ServeHTTP (ec2server.NewRouter scenario.ec2)
       (scenario.GET "/2009-04-04/meta-data/public-keys/" "10.0.0.5:4711")
       newWorld))).
Proof.
  exact (X1_at_most_one_lookup_and_one_fetch scenario.blockYaml
    scenario.registry scenario.keystore "example.org" scenario.template
    "ec2" (ec2server.NewRouter scenario.ec2)
    (scenario.GET "/2009-04-04/meta-data/public-keys/" "10.0.0.5:4711")
    eq_refl).
Defined.

(** X2. In both serving modes every request ends in one of these ways:
    status 200, 301 or 404; status 500 with an empty body and no
    header; or a panic before anything was written.  In particular a
    500 response never carries a body. *)
Theorem X2_status_500_has_no_body
  yaml_encode vmreg pub dns tpl (apiMode : string) (r : mux.Router)
  (rq : Request) :
  main.router yaml_encode vmreg pub dns tpl apiMode = Some r ->
  allOrNothing (mux.ServeHTTP r rq newWorld).
Proof.
  intros Hr.
  apply router_modes in Hr as [(e & -> & _) | (n & -> & _)].
  - apply ec2_serve_ending.
  - apply (nocloud_serve_ending yaml_encode).
Qed.

Lemma X2_status_500_has_no_body_witness :
  allOrNothing
    (mux.ServeHTTP (noclserver.NewRouter scenario.blockYaml scenario.nocloud)
       (scenario.GET "/user-data" "192.168.1.1:99") newWorld).
Proof.
  exact (X2_status_500_has_no_body scenario.blockYaml
    scenario.registry scenario.keystore "example.org" scenario.template
    "nocloud" (noclserver.NewRouter scenario.blockYaml scenario.nocloud)
    (scenario.GET "/user-data" "192.168.1.1:99") eq_refl).
Defined.

(** ** The response depends on the path, the method and the caller
    address only *)





(** ** Which paths are routed *)

Section RoutingInversion.

Lemma append_empty_r (s : string) : s +:+ "" = s.
Proof.
  induction s as [| c s IH]; [reflexivity |].
  change (String c (s +:+ "") = String c s). now rewrite IH.
Qed.


Lemma CutPrefix_Some_inv (p s r : string) :
  CutPrefix p s = Some r -> s = p +:+ r.
Proof.
  revert s; induction p as [| c p IH]; intros s; simpl.
  - intros [= ->]. reflexivity.
  - destruct s as [| b s]; [discriminate |].
    destruct (Ascii.eqb c b) eqn:E; [| discriminate].
    apply Ascii.eqb_eq in E; subst b. intros H. now rewrite (IH s H).
Qed.

Lemma segment_inv (s seg rest : string) :
  mux.segment s = (seg, rest) ->
  s = seg +:+ rest /\ ~ In "/"%char (list_ascii_of_string seg).
Proof.
  revert seg rest; induction s as [| c s IH]; intros seg rest; simpl.
  - intros [= <- <-]. split; [reflexivity | intros []].
  - destruct (Ascii.eqb c "/") eqn:E.
    + intros [= <- <-]. split; [reflexivity | intros []].
    + destruct (mux.segment s) as [seg' rest'].
      intros [= <- <-]. destruct (IH seg' rest' eq_refl) as [-> Hs].
      split; [reflexivity |]. simpl. intros [-> | H]; [| tauto].
      discriminate E.
Qed.


(** A template [lit {key} child] matches exactly the paths with one
    segment between the two texts, and binds that segment. *)
Lemma matchParts_var_inv (lit key child path : string)
  (vars : gmap string string) :
  mux.matchParts [mux.Lit lit; mux.Var key; mux.Lit child] path ∅ = Some vars ->
  exists idx, isSegment idx /\ path = lit +:+ idx +:+ child /\
              vars = {[ key := idx ]}.
Proof.
  cbn [mux.matchParts].
  destruct (CutPrefix lit path) as [r |] eqn:E; [| discriminate].
  apply CutPrefix_Some_inv in E. subst path.
  destruct (mux.segment r) as [seg rest] eqn:Es.
  apply segment_inv in Es as [-> Hs].
  destruct seg as [| c seg]; [discriminate |].
  destruct (CutPrefix child rest) as [r2 |] eqn:E2; [| discriminate].
  apply CutPrefix_Some_inv in E2. subst rest.
  destruct r2 as [| c2 r2]; [| discriminate].
  intros [= <-]. exists (String c seg).
  rewrite append_empty_r. repeat split; [discriminate | exact Hs].
Qed.

Lemma firstMatch_Some_match (prefix path : string) (rts : list mux.Route)
  (rt : mux.Route) (vars : gmap string string) :
  mux.firstMatch prefix path rts = Some (rt, vars) ->
  rt ∈ rts /\ mux.matchRoute prefix path rt = Some vars.
Proof.
  induction rts as [| r rts IH]; simpl; [discriminate |].
  destruct (mux.matchRoute prefix path r) eqn:E.
  - intros [= <- <-]. split; [left | exact E].
  - intros H. destruct (IH H). split; [right |]; assumption.
Qed.


End RoutingInversion.


Ltac parse_route_in H :=
  match type of H with
  | context [mux.matchRoute ?p ?s ?r] =>
      let t := eval vm_compute in
          (mux.parseTemplate (p +:+ mux.template r) false "") in
      change (mux.matchRoute p s r) with (mux.matchParts t s ∅) in H
  end.

Section Unrouted.

Variable yaml_encode : noclserver.Yaml -> result string.
Variable e : ec2server.Server.
Variable n : noclserver.Server.
Variable rq : Request.

Lemma NotFound_notFound : NotFound newWorld = notFound.
Proof. reflexivity. Qed.




End Unrouted.






(** ** The key index without its trailing slash *)




(** ** When a handler panics *)

Section Panics.

Variable yaml_encode : noclserver.Yaml -> result string.
Variable e : ec2server.Server.
Variable n : noclserver.Server.
Variable ip : string.

Lemma ec2_handlers_return (keyIdx : Z) (σ : World) :
  ec2server.HandleMetadata e newWorld <> Panicked σ /\
  ec2server.HandleHostname e ip newWorld <> Panicked σ /\
  ec2server.HandleInstanceID e ip newWorld <> Panicked σ /\
  ec2server.HandlePublicKeys e ip newWorld <> Panicked σ /\
  ec2server.HandlePublicKey e ip keyIdx newWorld <> Panicked σ.
Proof.
  run.
  destruct (rpc.Find _ _ _); cbn [calls];
    [destruct (rpc.GetKeys _ _ _) |];
    try destruct (keyIdx >=? _); repeat split; discriminate.
Qed.

Lemma nocloud_handlers_return (σ : World) :
  noclserver.HandleMetadata yaml_encode n ip newWorld <> Panicked σ /\
  noclserver.HandleUserdata n ip newWorld <> Panicked σ.
Proof.
  run.
  destruct (rpc.Find _ _ _); cbn [calls];
    [destruct (rpc.GetKeys _ _ _) |];
    try destruct (noclserver.Marshal _ _); try destruct (Execute _ _);
    repeat split; discriminate.
Qed.

Lemma Redirect_returns (rq : Request) (url : string) (code : Z) (σ : World) :
  Redirect rq url code newWorld <> Panicked σ.
Proof.
  unfold Redirect. cbn [newWorld writer newResponse header].
  rewrite lookup_empty.
  destruct (String.eqb (Method rq) "GET"), (String.eqb (Method rq) "HEAD");
    discriminate.
Qed.

(** The data handler panics only on a negative index, after both
    backends have answered and before anything is written. *)
Lemma HandlePublicKeyData_panic_inv (keyIdx : Z) (σ : World) :
  ec2server.HandlePublicKeyData e ip keyIdx newWorld = Panicked σ ->
  keyIdx < 0 /\
  exists vm pkeys,
    rpc.Find (ec2server.vmregClient e) [] (findByIP ip) = Ok vm /\
    rpc.GetKeys (ec2server.pubkeystoreClient e) [CallFind (findByIP ip)]
      (keysOf vm) = Ok pkeys /\
    σ = {| writer := newResponse; calls := lookupThenKeys ip vm |}.
Proof.
  run.
  destruct (rpc.Find _ _ _) as [vm |] eqn:EF; [| discriminate].
  cbn [calls].
  destruct (rpc.GetKeys _ _ _) as [pkeys |] eqn:EG; [| discriminate].
  destruct (Z.geb_spec keyIdx (len (pubkeystorepb.Keys pkeys))) as [| Hlt];
    [discriminate |].
  unfold index. destruct (Z.ltb_spec keyIdx 0) as [Hneg | Hnn].
  - intros [= <-]. split; [exact Hneg |]. exists vm, pkeys.
    repeat split; first [assumption | reflexivity].
  - destruct (pubkeystorepb.Keys pkeys !! Z.to_nat keyIdx) eqn:Ek;
      [discriminate |].
    apply lookup_ge_None in Ek. unfold len in Hlt. lia.
Qed.

End Panics.

(** X8. In both serving modes a request makes the handler panic only
    in one situation: EC2 mode, a path
    [/2009-04-04/meta-data/public-keys/idx/openssh-key] whose segment
    [idx] is read by [Atoi] as a negative number, after the registry and
    the key store have both answered; nothing has been written then.
    Every other request, and every request in NoCloud mode, returns. *)
Theorem X8_only_a_negative_key_index_panics
  yaml_encode vmreg pub dns tpl (apiMode : string) (r : mux.Router)
  (rq : Request) (σ : World) :
  main.router yaml_encode vmreg pub dns tpl apiMode = Some r ->
  mux.ServeHTTP r rq newWorld = Panicked σ ->
  apiMode = "ec2" /\
  exists (idx : string) (keyIdx : Z) vm pkeys,
    isSegment idx /\
    URL_Path rq
    = "/2009-04-04/meta-data/public-keys/" +:+ idx +:+ "/openssh-key" /\
    Atoi idx = Ok keyIdx /\ keyIdx < 0 /\
    rpc.Find vmreg [] (findByIP (ec2server.remoteIP rq)) = Ok vm /\
    rpc.GetKeys pub [CallFind (findByIP (ec2server.remoteIP rq))] (keysOf vm)
    = Ok pkeys /\
    σ = {| writer := newResponse;
           calls := lookupThenKeys (ec2server.remoteIP rq) vm |}.
Proof.
  unfold main.router. intros Hr Hpanic.
  destruct (String.eqb apiMode "ec2") eqn:Emode.
  - apply String.eqb_eq in Emode. split; [exact Emode |].
    injection Hr as <-. unfold mux.ServeHTTP in Hpanic.
    set (e := {| ec2server.vmregClient := vmreg;
                 ec2server.pubkeystoreClient := pub;
                 ec2server.userDataTemplate := tpl |}) in *.
    destruct (mux.firstMatch _ _ _) as [[rt vars] |] eqn:E;
      [| discriminate Hpanic].
    apply firstMatch_Some_match in E as [Hrt Hm].
    apply list_elem_of_In in Hrt. simpl in Hrt.
    destruct Hrt as [<- | [<- | [<- | [<- | [<- | [<- | [<- | []]]]]]]];
      cbn [mux.handlerFunc] in Hpanic;
      try (destruct (ec2_handlers_return e (ec2server.remoteIP rq) 0 σ)
             as (H1 & H2 & H3 & H4 & _);
           first [ exact (False_ind _ (H1 Hpanic))
                 | exact (False_ind _ (H2 Hpanic))
                 | exact (False_ind _ (H3 Hpanic))
                 | exact (False_ind _ (H4 Hpanic)) ]).
    + apply Redirect_returns in Hpanic. destruct Hpanic.
    + destruct (Atoi _) as [keyIdx |]; [| discriminate Hpanic].
      destruct (ec2_handlers_return e (ec2server.remoteIP rq) keyIdx σ)
        as (_ & _ & _ & _ & H5).
      destruct (H5 Hpanic).
    + cbn [mux.pathPrefix ec2server.NewRouter mux.HandleFunc] in Hm.
      parse_route_in Hm.
      apply matchParts_var_inv in Hm as (idx & Hseg & Hp & ->).
      unfold mux.Vars in Hpanic. rewrite lookup_singleton_eq in Hpanic.
      cbn [default from_option id] in Hpanic.
      destruct (Atoi idx) as [keyIdx |] eqn:Eidx; [| discriminate Hpanic].
      apply HandlePublicKeyData_panic_inv in Hpanic
        as (Hneg & vm & pkeys & Hf & Hk & ->).
      exists idx, keyIdx, vm, pkeys.
      split; [exact Hseg |]. repeat split; first [assumption | reflexivity].
  - destruct (String.eqb apiMode "nocloud"); [| discriminate Hr].
    injection Hr as <-. exfalso. unfold mux.ServeHTTP in Hpanic.
    destruct (mux.firstMatch _ _ _) as [[rt vars] |] eqn:E;
      [| discriminate Hpanic].
    apply firstMatch_Some in E. apply list_elem_of_In in E. simpl in E.
    destruct (nocloud_handlers_return yaml_encode
                {| noclserver.vmregClient := vmreg;
                   noclserver.pubkeystoreClient := pub;
                   noclserver.dnsName := dns;
                   noclserver.userDataTemplate := tpl |}
                (noclserver.remoteIP rq) σ) as (H1 & H2).
    destruct E as [<- | [<- | []]]; cbn [mux.handlerFunc] in Hpanic;
      [exact (H1 Hpanic) | exact (H2 Hpanic)].
Qed.

Lemma X8_only_a_negative_key_index_panics_witness :
  exists (idx : string) (keyIdx : Z),
    "/2009-04-04/meta-data/public-keys/-1/openssh-key"
    = "/2009-04-04/meta-data/public-keys/" +:+ idx +:+ "/openssh-key" /\
    Atoi idx = Ok keyIdx /\ keyIdx < 0.
Proof.
  destruct (X8_only_a_negative_key_index_panics scenario.blockYaml
    scenario.registry scenario.keystore "example.org" scenario.template
    "ec2" (ec2server.NewRouter scenario.ec2)
    (scenario.GET "/2009-04-04/meta-data/public-keys/-1/openssh-key"
       "10.0.0.5:4711")
    {| writer := newResponse;
       calls := lookupThenKeys "10.0.0.5" scenario.vm42 |}
    eq_refl eq_refl)
    as (_ & idx & keyIdx & _ & _ & _ & Hp & Hidx & Hneg & _).
  exists idx, keyIdx. repeat split; assumption.
Defined.

(** ** The EC2 endpoints on a resolved VM *)

(** X9. When the registry resolves the caller, the body of
    [/2009-04-04/meta-data/hostname] is the VM name, sent with status
    200 after that single lookup; the key store is not called. *)
Theorem X9_hostname_is_vm_name
  (e : ec2server.Server) (rq : Request) (vm : vmregistrypb.VM) :
  URL_Path rq = "/2009-04-04/meta-data/hostname" ->
  rpc.Find (ec2server.vmregClient e) []
    (findByIP (ec2server.remoteIP rq)) = Ok vm ->
  ec2server.serve e rq
  = reply 200 (vmregistrypb.Name vm)
      [CallFind (findByIP (ec2server.remoteIP rq))].
Proof.
  intros Hp Hf. rewrite ec2_route_hostname by assumption.
  apply HandleHostname_resolved, Hf.
Qed.

Lemma X9_hostname_is_vm_name_witness :
  ec2server.serve scenario.ec2
    (scenario.GET "/2009-04-04/meta-data/hostname" "10.0.0.5:4711")
  = reply 200 "vm-42" [CallFind (findByIP "10.0.0.5")].
Proof.
  exact (X9_hostname_is_vm_name scenario.ec2
    (scenario.GET "/2009-04-04/meta-data/hostname" "10.0.0.5:4711")
    scenario.vm42 eq_refl eq_refl).
Defined.

(** X10. The index directory [/2009-04-04/meta-data/public-keys/idx/]
    only compares the index with the number of keys: when both backends
    answer and [Atoi] reads [idx] as [keyIdx], the response is an empty
    500 if [keyIdx] is at least the number of keys and otherwise the
    one entry [openssh-key] with status 200, whatever the key is and
    also when [keyIdx] is negative. *)
Theorem X10_key_directory_compares_with_length
  (e : ec2server.Server) (rq : Request) (vm : vmregistrypb.VM)
  (pkeys : pubkeystorepb.GetKeysReply) (idx : string) (keyIdx : Z) :
  isSegment idx ->
  Atoi idx = Ok keyIdx ->
  URL_Path rq = "/2009-04-04/meta-data/public-keys/" +:+ idx +:+ "/" ->
  rpc.Find (ec2server.vmregClient e) []
    (findByIP (ec2server.remoteIP rq)) = Ok vm ->
  rpc.GetKeys (ec2server.pubkeystoreClient e)
    [CallFind (findByIP (ec2server.remoteIP rq))] (keysOf vm) = Ok pkeys ->
  ec2server.serve e rq
  = if keyIdx >=? len (pubkeystorepb.Keys pkeys)
    then reply 500 EmptyString (lookupThenKeys (ec2server.remoteIP rq) vm)
    else reply 200 "openssh-key" (lookupThenKeys (ec2server.remoteIP rq) vm).
Proof.
  intros Hseg Hidx Hp Hf Hk.
  rewrite (ec2_route_public_key e rq idx) by assumption. rewrite Hidx.
  destruct (Z.geb_spec keyIdx (len (pubkeystorepb.Keys pkeys))) as [Hge | Hlt].
  - apply (HandlePublicKey_too_large e _ vm pkeys Hf Hk). lia.
  - apply (HandlePublicKey_below e _ vm pkeys Hf Hk _ Hlt).
Qed.

Lemma X10_key_directory_compares_with_length_witness :
  ec2server.serve scenario.ec2
    (scenario.GET "/2009-04-04/meta-data/public-keys/0/" "10.0.0.5:4711")
  = reply 200 "openssh-key" (lookupThenKeys "10.0.0.5" scenario.vm42).
Proof.
  exact (X10_key_directory_compares_with_length scenario.ec2
    (scenario.GET "/2009-04-04/meta-data/public-keys/0/" "10.0.0.5:4711")
    scenario.vm42 {| pubkeystorepb.Keys := [scenario.k0] |} "0" 0
    isSegment_0 eq_refl eq_refl eq_refl eq_refl).
Defined.




(** X12. When both backends answer, an index that [Atoi] reads as a
    number at or above the number of keys gets an empty 500 from both
    index endpoints, after the lookup and the key fetch. *)
Theorem X12_index_beyond_keys_is_500
  (e : ec2server.Server) (rq : Request) (vm : vmregistrypb.VM)
  (pkeys : pubkeystorepb.GetKeysReply) (idx : string) (keyIdx : Z) :
  isSegment idx ->
  Atoi idx = Ok keyIdx ->
  len (pubkeystorepb.Keys pkeys) <= keyIdx ->
  URL_Path rq = "/2009-04-04/meta-data/public-keys/" +:+ idx +:+ "/" \/
  URL_Path rq
  = "/2009-04-04/meta-data/public-keys/" +:+ idx +:+ "/openssh-key" ->
  rpc.Find (ec2server.vmregClient e) []
    (findByIP (ec2server.remoteIP rq)) = Ok vm ->
  rpc.GetKeys (ec2server.pubkeystoreClient e)
    [CallFind (findByIP (ec2server.remoteIP rq))] (keysOf vm) = Ok pkeys ->
  ec2server.serve e rq
  = reply 500 EmptyString (lookupThenKeys (ec2server.remoteIP rq) vm).
Proof.
  intros Hseg Hidx Hlen [Hp | Hp] Hf Hk.
  - rewrite (ec2_route_public_key e rq idx) by assumption. rewrite Hidx.
    apply (HandlePublicKey_too_large e _ vm pkeys Hf Hk _ Hlen).
  - rewrite (ec2_route_public_key_data e rq idx) by assumption. rewrite Hidx.
    apply (HandlePublicKeyData_too_large e _ vm pkeys Hf Hk _ Hlen).
Qed.

Lemma isSegment_1 : isSegment "1".
Proof.
  split; [discriminate |]. cbn. intuition discriminate.
Defined.

Lemma X12_index_beyond_keys_is_500_witness :
  ec2server.serve scenario.ec2
    (scenario.GET "/2009-04-04/meta-data/public-keys/1/openssh-key"
       "10.0.0.5:4711")
  = reply 500 EmptyString (lookupThenKeys "10.0.0.5" scenario.vm42).
Proof.
  refine (X12_index_beyond_keys_is_500 scenario.ec2
    (scenario.GET "/2009-04-04/meta-data/public-keys/1/openssh-key"
       "10.0.0.5:4711")
    scenario.vm42 {| pubkeystorepb.Keys := [scenario.k0] |} "1" 1
    isSegment_1 eq_refl _ (or_intror eq_refl) eq_refl eq_refl).
  vm_compute. discriminate.
Defined.

(** ** Reading the listing back *)

Section ListingLines.

Lemma Cut_equals_app (before after : string) :
  ~ In "="%char (list_ascii_of_string before) ->
  Cut (before +:+ String "=" after) "=" = Some (before, after).
Proof.
  induction before as [| c before IH]; intros H; [reflexivity |].
  change (String c before +:+ String "=" after)
    with (String c (before +:+ String "=" after)).
  cbn [Cut CutPrefix].
  destruct (Ascii.eqb "=" c) eqn:E.
  - apply Ascii.eqb_eq in E. subst c. destruct H. left. reflexivity.
  - rewrite IH; [reflexivity |]. intros Hin. apply H. right. exact Hin.
Qed.

Lemma no_equals_of_uint (d : Decimal.uint) :
  ~ In "="%char (list_ascii_of_string (NilEmpty.string_of_uint d)).
Proof.
  induction d; cbn; intros H; [exact H | ..];
    (destruct H as [H | H]; [discriminate H | exact (IHd H)]).
Qed.

Lemma no_equals_Itoa (i : nat) :
  ~ In "="%char (list_ascii_of_string (Itoa (Z.of_nat i))).
Proof.
  destruct (Z.of_nat i) as [| p | p] eqn:Ei; [| | lia].
  - cbn. intuition discriminate.
  - unfold Itoa. cbn [Z.to_int NilZero.string_of_int].
    pose proof (DecimalPos.Unsigned.to_uint_nonnil p) as Hnil.
    pose proof (no_equals_of_uint (Pos.to_uint p)) as Hs.
    unfold NilZero.string_of_uint.
    destruct (Pos.to_uint p); [congruence | ..]; exact Hs.
Qed.

End ListingLines.

(** X13. The listing can be read back.  For a VM whose key [i] is
    [key]: line [i] of the body of [public-keys/] cuts at its first
    equals sign into the decimal [i] and the key's name (also when the
    name contains equals signs), and a request for
    [public-keys/<that decimal>/openssh-key] from the same caller
    returns the one-line form of that key. *)
Theorem X13_listing_line_leads_to_its_key
  (e : ec2server.Server) (rq1 rq2 : Request) (vm : vmregistrypb.VM)
  (pkeys : pubkeystorepb.GetKeysReply) (i : nat) (key : pubkeystorepb.Key) :
  Z.of_nat i <= maxInt ->
  URL_Path rq1 = "/2009-04-04/meta-data/public-keys/" ->
  URL_Path rq2
  = "/2009-04-04/meta-data/public-keys/" +:+ Itoa (Z.of_nat i)
    +:+ "/openssh-key" ->
  RemoteAddr rq2 = RemoteAddr rq1 ->
  rpc.Find (ec2server.vmregClient e) []
    (findByIP (ec2server.remoteIP rq1)) = Ok vm ->
  rpc.GetKeys (ec2server.pubkeystoreClient e)
    [CallFind (findByIP (ec2server.remoteIP rq1))] (keysOf vm) = Ok pkeys ->
  pubkeystorepb.Keys pkeys !! i = Some key ->
  exists (lines : list string) (line : string),
    ec2server.serve e rq1
    = reply 200 (Join lines LF) (lookupThenKeys (ec2server.remoteIP rq1) vm)
    /\ lines !! i = Some line
    /\ Cut line "=" = Some (Itoa (Z.of_nat i), pubkeystorepb.Name key)
    /\ ec2server.serve e rq2
       = reply 200
           (pubkeystorepb.Algo key +:+ " " +:+ pubkeystorepb.Pubkey key
            +:+ " " +:+ pubkeystorepb.Comment key)
           (lookupThenKeys (ec2server.remoteIP rq1) vm).
Proof.
  intros Hmax Hp1 Hp2 Ha Hf Hk Hkey.
  eexists _, _. split; [| split; [| split]].
  - rewrite ec2_route_public_keys by assumption.
    apply HandlePublicKeys_resolved; eassumption.
  - rewrite list_lookup_imap, Hkey. reflexivity.
  - apply Cut_equals_app, no_equals_Itoa.
  - assert (ec2server.remoteIP rq2 = ec2server.remoteIP rq1) as Hip
      by (unfold ec2server.remoteIP; now rewrite Ha).
    rewrite <- Hip in *.
    apply (listed_index_leads_to_its_key e rq2 vm pkeys i key);
      assumption.
Qed.

Lemma X13_listing_line_leads_to_its_key_witness :
  exists (lines : list string) (line : string),
    ec2server.serve scenario.ec2
      (scenario.GET "/2009-04-04/meta-data/public-keys/" "10.0.0.5:4711")
    = reply 200 (Join lines LF) (lookupThenKeys "10.0.0.5" scenario.vm42)
    /\ lines !! 0%nat = Some line
    /\ Cut line "=" = Some ("0", "k0")
    /\ ec2server.serve scenario.ec2
         (scenario.GET "/2009-04-04/meta-data/public-keys/0/openssh-key"
            "10.0.0.5:4711")
       = reply 200 "ssh-rsa AAAA... host1"
           (lookupThenKeys "10.0.0.5" scenario.vm42).
Proof.
  refine (X13_listing_line_leads_to_its_key scenario.ec2
    (scenario.GET "/2009-04-04/meta-data/public-keys/" "10.0.0.5:4711")
    (scenario.GET "/2009-04-04/meta-data/public-keys/0/openssh-key"
       "10.0.0.5:4711")
    scenario.vm42 {| pubkeystorepb.Keys := [scenario.k0] |} 0%nat scenario.k0
    _ eq_refl eq_refl eq_refl eq_refl eq_refl eq_refl).
  vm_compute. discriminate.
Defined.




(** ** A VM without keys *)

(** X15. A VM without keys is not an error for the listing: when the
    key store answers with an empty list, [public-keys/] returns status
    200 with an empty body, while both index endpoints answer every
    index that [Atoi] reads as a non-negative number with an empty
    500. *)
Theorem X15_vm_without_keys
  (e : ec2server.Server) (m a ip : string) (vm : vmregistrypb.VM)
  (pkeys : pubkeystorepb.GetKeysReply) :
  let get path := ec2server.serve e
                    {| Method := m; URL_Path := path; RemoteAddr := a |} in
  SplitN a ":" 2 !! 0%nat = Some ip ->
  rpc.Find (ec2server.vmregClient e) [] (findByIP ip) = Ok vm ->
  rpc.GetKeys (ec2server.pubkeystoreClient e) [CallFind (findByIP ip)]
    (keysOf vm) = Ok pkeys ->
  pubkeystorepb.Keys pkeys = [] ->
  get "/2009-04-04/meta-data/public-keys/"
  = reply 200 EmptyString (lookupThenKeys ip vm)
  /\ forall (idx : string) (keyIdx : Z),
       isSegment idx -> Atoi idx = Ok keyIdx -> 0 <= keyIdx ->
       get ("/2009-04-04/meta-data/public-keys/" +:+ idx +:+ "/")
       = reply 500 EmptyString (lookupThenKeys ip vm)
       /\ get ("/2009-04-04/meta-data/public-keys/" +:+ idx +:+ "/openssh-key")
          = reply 500 EmptyString (lookupThenKeys ip vm).
Proof.
  intros get Hip Hf Hk Hempty. subst get.
  assert (forall path,
            ec2server.remoteIP
              {| Method := m; URL_Path := path; RemoteAddr := a |} = ip)
    as Hrem by (intros path; unfold ec2server.remoteIP; cbn [RemoteAddr];
                rewrite Hip; reflexivity).
  split.
  - rewrite ec2_route_public_keys by reflexivity. rewrite Hrem.
    rewrite (HandlePublicKeys_resolved e ip vm pkeys Hf Hk), Hempty.
    reflexivity.
  - intros idx keyIdx Hseg Hidx Hnn. split.
    + rewrite (ec2_route_public_key e _ idx) by (assumption || reflexivity).
      rewrite Hidx, Hrem.
      apply (HandlePublicKey_too_large e ip vm pkeys Hf Hk).
      rewrite Hempty. exact Hnn.
    + rewrite (ec2_route_public_key_data e _ idx)
        by (assumption || reflexivity).
      rewrite Hidx, Hrem.
      apply (HandlePublicKeyData_too_large e ip vm pkeys Hf Hk).
      rewrite Hempty. exact Hnn.
Qed.

Lemma X15_vm_without_keys_witness :
  ec2server.serve
    {| ec2server.vmregClient := scenario.registry;
       ec2server.pubkeystoreClient :=
         {| rpc.GetKeys := λ _ _, Ok {| pubkeystorepb.Keys := [] |} |};
       ec2server.userDataTemplate := scenario.template |}
    (scenario.GET "/2009-04-04/meta-data/public-keys/" "10.0.0.5:4711")
  = reply 200 EmptyString (lookupThenKeys "10.0.0.5" scenario.vm42).
Proof.
  exact (proj1 (X15_vm_without_keys
    {| ec2server.vmregClient := scenario.registry;
       ec2server.pubkeystoreClient :=
         {| rpc.GetKeys := λ _ _, Ok {| pubkeystorepb.Keys := [] |} |};
       ec2server.userDataTemplate := scenario.template |}
    "GET" "10.0.0.5:4711" "10.0.0.5" scenario.vm42
    {| pubkeystorepb.Keys := [] |}
    eq_refl eq_refl eq_refl eq_refl)).
Defined.

(** ** The template in EC2 mode *)

(** X16. No EC2 endpoint uses the user-data template: two EC2 servers
    with the same two clients answer every request alike, whatever
    their templates. *)
Theorem X16_ec2_never_uses_the_template
  (e1 e2 : ec2server.Server) (rq : Request) :
  ec2server.vmregClient e1 = ec2server.vmregClient e2 ->
  ec2server.pubkeystoreClient e1 = ec2server.pubkeystoreClient e2 ->
  ec2server.serve e1 rq = ec2server.serve e2 rq.
Proof.
  destruct e1 as [vmreg1 pub1 tpl1], e2 as [vmreg2 pub2 tpl2].
  cbn [ec2server.vmregClient ec2server.pubkeystoreClient].
  intros <- <-. reflexivity.
Qed.

Lemma X16_ec2_never_uses_the_template_witness :
  ec2server.serve scenario.ec2
    (scenario.GET "/2009-04-04/meta-data/hostname" "10.0.0.5:4711")
  = ec2server.serve
      {| ec2server.vmregClient := scenario.registry;
         ec2server.pubkeystoreClient := scenario.keystore;
         ec2server.userDataTemplate :=
           {| Execute := λ _, (EmptyString, Some (ErrBackend "broken")) |} |}
      (scenario.GET "/2009-04-04/meta-data/hostname" "10.0.0.5:4711").
Proof.
  exact (X16_ec2_never_uses_the_template scenario.ec2
    {| ec2server.vmregClient := scenario.registry;
       ec2server.pubkeystoreClient := scenario.keystore;
       ec2server.userDataTemplate :=
         {| Execute := λ _, (EmptyString, Some (ErrBackend "broken")) |} |}
    (scenario.GET "/2009-04-04/meta-data/hostname" "10.0.0.5:4711")
    eq_refl eq_refl).
Defined.

(** ** Start-up *)

Section StartUp.

Variable yaml_encode : noclserver.Yaml -> result string.
Variable Conn : Type.
Variable Error : error -> string.
Variable tracing_InitTracer : string -> string -> option error.
Variable client_NewCredstoreClient :
  string -> string -> result main.CredstoreClient.
Variable clienthelpers_NewGRPCConn :
  string -> string -> string -> string -> result Conn.
Variable vmregistrypb_NewVMRegistryClient : Conn -> string -> VMRegistryClient.
Variable pubkeystorepb_NewPubkeyStoreClient :
  Conn -> string -> PubkeyStoreClient.
Variable ioutil_ReadFile : string -> result string.
Variable strings_TrimSpace : string -> string.
Variable template_Parse : string -> result Template.
Variable flags : main.Flags.

Let start : main.Exit :=
  main.main yaml_encode Conn Error tracing_InitTracer
    client_NewCredstoreClient clienthelpers_NewGRPCConn
    vmregistrypb_NewVMRegistryClient pubkeystorepb_NewPubkeyStoreClient
    ioutil_ReadFile strings_TrimSpace template_Parse flags.

Let newVMRegistryClient :=
  main.newVMRegistryClient Conn Error clienthelpers_NewGRPCConn
    vmregistrypb_NewVMRegistryClient flags.

Let newPubkeyStoreClient :=
  main.newPubkeyStoreClient Conn Error clienthelpers_NewGRPCConn
    pubkeystorepb_NewPubkeyStoreClient flags.

(** The registry client [main] builds calls the generated client with
    the token issued for the registry address, over a connection to
    that address. *)
Lemma newVMRegistryClient_Ok (cred : main.CredstoreClient)
  (vmreg : VMRegistryClient) :
  newVMRegistryClient cred = Ok vmreg ->
  exists tok conn,
    main.GetTokenForRemote cred (main.vmregistryAddress flags) = Ok tok /\
    clienthelpers_NewGRPCConn (main.vmregistryAddress flags)
      (main.vmregistryCA flags) "" "" = Ok conn /\
    vmreg = main.vmregistryBearerClient_Find
              {| main.vmregistry_cli := vmregistrypb_NewVMRegistryClient conn;
                 main.vmregistry_tok := tok |}.
Proof.
  unfold newVMRegistryClient, main.newVMRegistryClient.
  destruct (main.GetTokenForRemote _ _) as [tok |]; [| discriminate].
  destruct (clienthelpers_NewGRPCConn _ _ _ _) as [conn |]; [| discriminate].
  intros [= <-]. eauto.
Qed.

Lemma newPubkeyStoreClient_Ok (cred : main.CredstoreClient)
  (pub : PubkeyStoreClient) :
  newPubkeyStoreClient cred = Ok pub ->
  exists tok conn,
    main.GetTokenForRemote cred (main.pubkeystoreAddress flags) = Ok tok /\
    clienthelpers_NewGRPCConn (main.pubkeystoreAddress flags)
      (main.pubkeystoreCA flags) "" "" = Ok conn /\
    pub = main.pubkeystoreBearerClient_GetKeys
            {| main.pubkeystore_cli := pubkeystorepb_NewPubkeyStoreClient conn;
               main.pubkeystore_tok := tok |}.
Proof.
  unfold newPubkeyStoreClient, main.newPubkeyStoreClient.
  destruct (main.GetTokenForRemote _ _) as [tok |]; [| discriminate].
  destruct (clienthelpers_NewGRPCConn _ _ _ _) as [conn |]; [| discriminate].
  intros [= <-]. eauto.
Qed.

(** X17. Whenever [main] gets as far as serving, it serves on the
    [-listen] address the router of the chosen mode ([ec2] or
    [nocloud], nothing else), over the template parsed from the trimmed
    text of the template file, and over two clients that call the
    registry with the token the credential store issued for the
    registry address and the key store with the token issued for the
    key store address. *)
Theorem X17_main_serves_the_router_of_its_mode
  (addr : string) (logged : bool) (r : mux.Router) :
  start = main.ListenAndServe addr logged r ->
  addr = main.listenAddress flags /\ logged = main.logHTTP flags /\
  exists cred tokV connV tokP connP text tpl,
    client_NewCredstoreClient (main.credStoreAddress flags)
      (main.credStoreCA flags) = Ok cred /\
    main.GetTokenForRemote cred (main.vmregistryAddress flags) = Ok tokV /\
    clienthelpers_NewGRPCConn (main.vmregistryAddress flags)
      (main.vmregistryCA flags) "" "" = Ok connV /\
    main.GetTokenForRemote cred (main.pubkeystoreAddress flags) = Ok tokP /\
    clienthelpers_NewGRPCConn (main.pubkeystoreAddress flags)
      (main.pubkeystoreCA flags) "" "" = Ok connP /\
    ioutil_ReadFile (main.userDataTemplateFile flags) = Ok text /\
    template_Parse (strings_TrimSpace text) = Ok tpl /\
    main.router yaml_encode
      (main.vmregistryBearerClient_Find
         {| main.vmregistry_cli := vmregistrypb_NewVMRegistryClient connV;
            main.vmregistry_tok := tokV |})
      (main.pubkeystoreBearerClient_GetKeys
         {| main.pubkeystore_cli := pubkeystorepb_NewPubkeyStoreClient connP;
            main.pubkeystore_tok := tokP |})
      (main.dnsName flags) tpl (main.apiMode flags)
    = Some r.
Proof.
  unfold start, main.main.
  destruct (tracing_InitTracer _ _); [discriminate |].
  destruct (client_NewCredstoreClient _ _) as [cred |] eqn:Ec;
    [| discriminate].
  destruct (main.newVMRegistryClient _ _ _ _ _ cred) as [vmreg |] eqn:Ev;
    [| discriminate].
  destruct (main.newPubkeyStoreClient _ _ _ _ _ cred) as [pub |] eqn:Ep;
    [| discriminate].
  destruct (ioutil_ReadFile _) as [text |] eqn:Er; [| discriminate].
  apply newVMRegistryClient_Ok in Ev as (tokV & connV & HtV & HcV & ->).
  apply newPubkeyStoreClient_Ok in Ep as (tokP & connP & HtP & HcP & ->).
  unfold main.router, ec2server.NewServer, noclserver.NewServer.
  destruct (String.eqb (main.apiMode flags) "ec2");
    [| destruct (String.eqb (main.apiMode flags) "nocloud");
       [| discriminate]];
    (destruct (template_Parse (strings_TrimSpace text)) as [tpl |] eqn:Et;
       [| discriminate]);
    intros [= <- <- <-]; (split; [reflexivity |]); (split; [reflexivity |]);
    exists cred, tokV, connV, tokP, connP, text, tpl;
    repeat split; assumption.
Qed.

(** X18. A template file whose trimmed text does not parse stops
    [main] in both modes, the EC2 mode included although no EC2
    endpoint uses the template: once the clients are connected and the
    file is read, [main] panics in mode [ec2] and in mode [nocloud];
    in any other mode it ends with the fatal message
    [unsupported api mode], whatever the template. *)
Theorem X18_template_must_parse_in_both_modes
  (cred : main.CredstoreClient) (vmreg : VMRegistryClient)
  (pub : PubkeyStoreClient) (text : string) (err : error) :
  tracing_InitTracer (main.listenAddress flags) "metaserver" = None ->
  client_NewCredstoreClient (main.credStoreAddress flags)
    (main.credStoreCA flags) = Ok cred ->
  newVMRegistryClient cred = Ok vmreg ->
  newPubkeyStoreClient cred = Ok pub ->
  ioutil_ReadFile (main.userDataTemplateFile flags) = Ok text ->
  template_Parse (strings_TrimSpace text) = Err err ->
  start
  = if String.eqb (main.apiMode flags) "ec2"
       || String.eqb (main.apiMode flags) "nocloud"
    then main.Panics
    else main.Fatalf ("unsupported api mode: " +:+ main.apiMode flags).
Proof.
  unfold start, main.main, newVMRegistryClient, newPubkeyStoreClient.
  intros -> -> -> -> -> Hparse.
  unfold ec2server.NewServer, noclserver.NewServer. rewrite Hparse.
  destruct (String.eqb (main.apiMode flags) "ec2"),
    (String.eqb (main.apiMode flags) "nocloud"); reflexivity.
Qed.

End StartUp.

Lemma X17_main_serves_the_router_of_its_mode_witness :
  exists tpl,
    scenario.parse (scenario.trimSpace (" host" +:+ LF)) = Ok tpl /\
    main.router scenario.blockYaml
      (main.vmregistryBearerClient_Find
         {| main.vmregistry_cli := scenario.registryAt "127.0.0.1:9000";
            main.vmregistry_tok := "token for 127.0.0.1:9000" |})
      (main.pubkeystoreBearerClient_GetKeys
         {| main.pubkeystore_cli := scenario.keystoreAt "127.0.0.1:9001";
            main.pubkeystore_tok := "token for 127.0.0.1:9001" |})
      "example.org" tpl "nocloud"
    = Some (noclserver.NewRouter scenario.blockYaml
              {| noclserver.vmregClient :=
                   main.vmregistryBearerClient_Find
                     {| main.vmregistry_cli :=
                          scenario.registryAt "127.0.0.1:9000";
                        main.vmregistry_tok := "token for 127.0.0.1:9000" |};
                 noclserver.pubkeystoreClient :=
                   main.pubkeystoreBearerClient_GetKeys
                     {| main.pubkeystore_cli :=
                          scenario.keystoreAt "127.0.0.1:9001";
                        main.pubkeystore_tok := "token for 127.0.0.1:9001" |};
                 noclserver.dnsName := "example.org";
                 noclserver.userDataTemplate := scenario.template |}).
Proof.
  destruct (X17_main_serves_the_router_of_its_mode scenario.blockYaml string
    scenario.errorText (λ _ _, None) (λ _ _, Ok scenario.credstore)
    (λ addr _ _ _, Ok addr) scenario.registryAt scenario.keystoreAt
    scenario.readFile scenario.trimSpace scenario.parse scenario.flags
    "127.0.0.1:8080" true
    (noclserver.NewRouter scenario.blockYaml
       {| noclserver.vmregClient :=
            main.vmregistryBearerClient_Find
              {| main.vmregistry_cli := scenario.registryAt "127.0.0.1:9000";
                 main.vmregistry_tok := "token for 127.0.0.1:9000" |};
          noclserver.pubkeystoreClient :=
            main.pubkeystoreBearerClient_GetKeys
              {| main.pubkeystore_cli := scenario.keystoreAt "127.0.0.1:9001";
                 main.pubkeystore_tok := "token for 127.0.0.1:9001" |};
          noclserver.dnsName := "example.org";
          noclserver.userDataTemplate := scenario.template |})
    eq_refl)
    as (_ & _ & cred & tokV & connV & tokP & connP & text & tpl
        & Hc & HtV & HcV & HtP & HcP & Hr & Hp & Hrouter).
  injection Hc as <-. injection HtV as <-. injection HcV as <-.
  injection HtP as <-. injection HcP as <-. injection Hr as <-.
  exists tpl. split; [exact Hp | exact Hrouter].
Defined.

(** The same environment with a template file that does not parse, in
    EC2 mode. *)
Lemma X18_template_must_parse_in_both_modes_witness :
  main.main scenario.blockYaml string scenario.errorText (λ _ _, None)
    (λ _ _, Ok scenario.credstore) (λ addr _ _ _, Ok addr)
    scenario.registryAt scenario.keystoreAt
    (λ _, Ok "{{") scenario.trimSpace scenario.parse
    {| main.listenAddress := "127.0.0.1:8080";
       main.credStoreAddress := ""; main.credStoreCA := "";
       main.vmregistryAddress := "127.0.0.1:9000"; main.vmregistryCA := "";
       main.pubkeystoreAddress := "127.0.0.1:9001"; main.pubkeystoreCA := "";
       main.logHTTP := true; main.apiMode := "ec2";
       main.userDataTemplateFile := ""; main.dnsName := "" |}
  = main.Panics.
Proof.
  exact (X18_template_must_parse_in_both_modes scenario.blockYaml string
    scenario.errorText (λ _ _, None) (λ _ _, Ok scenario.credstore)
    (λ addr _ _ _, Ok addr) scenario.registryAt scenario.keystoreAt
    (λ _, Ok "{{") scenario.trimSpace scenario.parse
    {| main.listenAddress := "127.0.0.1:8080";
       main.credStoreAddress := ""; main.credStoreCA := "";
       main.vmregistryAddress := "127.0.0.1:9000"; main.vmregistryCA := "";
       main.pubkeystoreAddress := "127.0.0.1:9001"; main.pubkeystoreCA := "";
       main.logHTTP := true; main.apiMode := "ec2";
       main.userDataTemplateFile := ""; main.dnsName := "" |}
    scenario.credstore _ _ "{{" (ErrBackend "template: userdata: unexpected text")
    eq_refl eq_refl eq_refl eq_refl eq_refl eq_refl).
Defined.
